(** * Documentation registry and OAS3 export: a shallow embedding

  The development follows the two source files of the repository:

  - [src/lambda/getoas3.ts], the Lambda handler that asks API Gateway for
    the merged OAS3 document and hands it to the Lambda callback
    (module [Lambda]; the UTF-8 transcoding done by
    [Buffer.prototype.toString('utf8')] lives in module [Utf8]);
  - [src/lib/api-docs-stack.ts], the CDK stack that registers the
    documentation version and the documentation parts (module [Stack],
    with the JavaScript [Date] and [Number] conversions in module [JS]). *)

From Stdlib Require Import ZArith List Lia Bool String Ascii.
From Stdlib Require Import Strings.Byte DecimalString DecimalZ.
From stdpp Require Import base gmap strings list.

Local Open Scope Z_scope.

(** ** JavaScript strings as produced by a decoder

  A JavaScript string is a sequence of UTF-16 code units.  The strings
  the handler builds come out of a UTF-8 decoder and are therefore
  well-formed; such a string is represented by its sequence of Unicode
  code points. *)
Definition JSString := list Z.

(** A Node [Buffer] is a sequence of octets. *)
Definition Buffer := list Init.Byte.byte.

Module Utf8.

Definition byte_to_Z (b : Init.Byte.byte) : Z := Z.of_N (Byte.to_N b).

Definition byte_of_Z (z : Z) : Init.Byte.byte :=
  match Byte.of_N (Z.to_N z) with
  | Some b => b
  | None => Byte.x00
  end.

(** U+FFFD, emitted for every ill-formed subsequence. *)
Definition REPLACEMENT : Z := 0xFFFD.

(** Unicode scalar values: code points outside the surrogate range. *)
Definition is_scalar (c : Z) : bool :=
  ((0 <=? c) && (c <=? 0xD7FF)) || ((0xE000 <=? c) && (c <=? 0x10FFFF)).

(** State of the decoder between two bytes: either at a character
    boundary, or inside a multi-byte sequence with the bits gathered so
    far, the number of continuation bytes still expected and the range
    the next byte has to fall in. *)
Inductive state : Type :=
| Start
| Cont (cp : Z) (remaining : nat) (lo hi : Z).

(** A byte read at a character boundary. *)
Definition lead (b : Z) : state * list Z :=
  if b <=? 0x7F then (Start, [b])
  else if (0xC2 <=? b) && (b <=? 0xDF) then
    (Cont (Z.land b 0x1F) 1 0x80 0xBF, [])
  else if (0xE0 <=? b) && (b <=? 0xEF) then
    (Cont (Z.land b 0xF) 2
          (if b =? 0xE0 then 0xA0 else 0x80)
          (if b =? 0xED then 0x9F else 0xBF), [])
  else if (0xF0 <=? b) && (b <=? 0xF4) then
    (Cont (Z.land b 0x7) 3
          (if b =? 0xF0 then 0x90 else 0x80)
          (if b =? 0xF4 then 0x8F else 0xBF), [])
  else (Start, [REPLACEMENT]).

(** One byte of input.  A byte that cannot continue the sequence under
    way ends it with a replacement character and is then read again as
    the first byte of a new sequence. *)
Definition step (s : state) (b : Z) : state * list Z :=
  match s with
  | Start => lead b
  | Cont cp n lo hi =>
      if (lo <=? b) && (b <=? hi) then
        let cp' := Z.lor (Z.shiftl cp 6) (Z.land b 0x3F) in
        match n with
        | S (S n') => (Cont cp' (S n') 0x80 0xBF, [])
        | _ => (Start, [cp'])
        end
      else
        let '(s', out) := lead b in (s', REPLACEMENT :: out)
  end.

Fixpoint run (s : state) (bs : list Z) : list Z :=
  match bs with
  | [] => match s with
          | Start => []
          | Cont _ _ _ _ => [REPLACEMENT]
          end
  | b :: bs' => let '(s', out) := step s b in out ++ run s' bs'
  end.

(** [buf.toString('utf8')]: never fails, ill-formed input is replaced. *)
Definition decode (buf : Buffer) : JSString :=
  run Start (map byte_to_Z buf).

(** The UTF-8 encoding of one code point, as octet values. *)
Definition encode1 (c : Z) : list Z :=
  if c <? 0x80 then [c]
  else if c <? 0x800 then
    [Z.lor 0xC0 (Z.shiftr c 6); Z.lor 0x80 (Z.land c 0x3F)]
  else if c <? 0x10000 then
    [Z.lor 0xE0 (Z.shiftr c 12);
     Z.lor 0x80 (Z.land (Z.shiftr c 6) 0x3F);
     Z.lor 0x80 (Z.land c 0x3F)]
  else
    [Z.lor 0xF0 (Z.shiftr c 18);
     Z.lor 0x80 (Z.land (Z.shiftr c 12) 0x3F);
     Z.lor 0x80 (Z.land (Z.shiftr c 6) 0x3F);
     Z.lor 0x80 (Z.land c 0x3F)].

Definition encodeZ (s : JSString) : list Z := flat_map encode1 s.

(** [Buffer.from(s, 'utf8')] for a well-formed string. *)
Definition encode (s : JSString) : Buffer := map byte_of_Z (encodeZ s).

(** A buffer holds well-formed UTF-8 when it is the encoding of a
    sequence of scalar values. *)
Definition well_formed (buf : Buffer) : Prop :=
  exists s : JSString, forallb is_scalar s = true /\ buf = encode s.

End Utf8.

(** ** The export handler ([src/lambda/getoas3.ts]) *)

Module Lambda.

(** [GetExportRequest] of the SDK.  The two identity fields come from
    [process.env] and are [undefined] when the variable is not set. *)
Record GetExportRequest : Type := {
  restApiId : option string;
  stageName : option string;
  exportType : string;
  parameters : gmap string string
}.

(** [GetExportResponse]: every member is optional in the SDK. *)
Record GetExportResponse : Type := {
  contentType : option string;
  contentDisposition : option string;
  body : option Buffer
}.

Record AWSError : Type := {
  code : string;
  message : string
}.

(** The part of the HTTP API event a handler could look at. *)
Record APIGatewayProxyEventV2 : Type := {
  rawPath : string;
  rawQueryString : string;
  headers : gmap string string;
  queryStringParameters : option (gmap string string);
  eventBody : option string
}.

Record Context : Type := {
  functionName : string;
  awsRequestId : string
}.

(** The value handed to the Lambda callback on success. *)
Record Response : Type := {
  statusCode : Z;
  responseHeaders : gmap string string;
  responseBody : JSString
}.

Inductive JsException : Type :=
| TypeError (what : string).

(** What an invocation does that is visible from outside, in order. *)
Inductive Effect : Type :=
| GetExportCall (params : GetExportRequest)   (* client.getExport(params, cb) *)
| CallbackErr (err : AWSError)                (* callback(err) *)
| CallbackOk (res : Response).                (* callback(null, res) *)

(** How a function body ends. *)
Inductive Completion : Type :=
| Normal
| Throw (e : JsException).

Definition Run : Type := list Effect * Completion.

(** What the platform answers to one [getExport]. *)
Inductive Outcome : Type :=
| Failed (err : AWSError)
| Succeeded (data : GetExportResponse).

(** The SDK calls back with [(err, null)] or [(null, data)]. *)
Definition callback_args (o : Outcome)
  : option AWSError * option GetExportResponse :=
  match o with
  | Failed e => (Some e, None)
  | Succeeded d => (None, Some d)
  end.

(** The platform's export capability, as the handler sees it. *)
Definition Client : Type := GetExportRequest -> Outcome.

Definition getExportParams
    (env : gmap string string) (event : APIGatewayProxyEventV2)
    (context : Context) : GetExportRequest :=
  {| restApiId := env !! "restApiId"%string;
     stageName := env !! "stage"%string;
     exportType := "oas30";
     parameters := {[ "extensions"%string := "documentation"%string ]} |}.

(** The arrow function passed to [client.getExport].

    [if (err) callback(err);] has no [return]: control falls through to
    the second [callback(...)] call, whose argument is evaluated first;
    [data.body] throws when [data] is [null] or [undefined], and
    [Buffer.from(undefined)] throws when the response has no body. *)
Definition getExportCallback
    (err : option AWSError) (data : option GetExportResponse) : Run :=
  let reported :=
    match err with
    | Some e => [CallbackErr e]
    | None => []
    end in
  match data with
  | None => (reported, Throw (TypeError "Cannot read properties of null (reading 'body')"))
  | Some d =>
      match body d with
      | None => (reported, Throw (TypeError "The first argument must be of type string or an instance of Buffer"))
      | Some buf =>
          (reported ++
           [CallbackOk {| statusCode := 200;
                          responseHeaders :=
                            {[ "Access-Control-Allow-Origin"%string := "*"%string ]};
                          responseBody := Utf8.decode buf |}],
           Normal)
      end
  end.

Definition handler
    (client : Client) (env : gmap string string)
    (event : APIGatewayProxyEventV2) (context : Context) : Run :=
  let params := getExportParams env event context in
  let '(err, data) := callback_args (client params) in
  let '(effects, completion) := getExportCallback err data in
  (GetExportCall params :: effects, completion).

(** Observations on a run. *)
Definition platform_calls (r : Run) : list GetExportRequest :=
  omap (fun e => match e with GetExportCall p => Some p | _ => None end) r.1.

Definition documents (r : Run) : list Response :=
  omap (fun e => match e with CallbackOk res => Some res | _ => None end) r.1.

Definition reported_errors (r : Run) : list AWSError :=
  omap (fun e => match e with CallbackErr err => Some err | _ => None end) r.1.

End Lambda.

(** ** The JavaScript conversions used by the stack *)

Module JS.

(** [`${n}`] for an integral Number of magnitude below 10^21: the
    decimal digits, with a leading minus sign when negative. *)
Definition Number_toString (n : Z) : string :=
  DecimalString.NilEmpty.string_of_int (Z.to_int n).

(** The inverse reading of such a numeral. *)
Definition Number_parse (s : string) : option Z :=
  option_map Z.of_int (DecimalString.NilEmpty.int_of_string s).

(** A [Date] object is its time value: milliseconds since the epoch. *)
Definition Date := Z.

Definition getTime (d : Date) : Z := d.

Definition msPerDay : Z := 86400000.

(** Proleptic Gregorian (year, month, day) of a day number counted from
    1970-01-01; eras of 400 years start on March 1st. *)
Definition civil (day : Z) : Z * Z * Z :=
  let z := day + 719468 in
  let era := z / 146097 in
  let doe := z mod 146097 in
  let yoe := (doe - doe / 1460 + doe / 36524 - doe / 146096) / 365 in
  let doy := doe - (365 * yoe + yoe / 4 - yoe / 100) in
  let mp := (5 * doy + 2) / 153 in
  let d := doy - (153 * mp + 2) / 5 + 1 in
  let m := if mp <? 10 then mp + 3 else mp - 9 in
  let y := yoe + era * 400 + (if m <=? 2 then 1 else 0) in
  (y, m, d).

(** The day number of a proleptic Gregorian date: the inverse reading. *)
Definition days_from_civil (y m d : Z) : Z :=
  let y' := if m <=? 2 then y - 1 else y in
  let era := y' / 400 in
  let yoe := y' mod 400 in
  let doy := (153 * (if 2 <? m then m - 3 else m + 9) + 2) / 5 + d - 1 in
  let doe := yoe * 365 + yoe / 4 - yoe / 100 + doy in
  era * 146097 + doe - 719468.

(** The time values a [Date] can hold (ECMAScript's time clip). *)
Definition valid_time (t : Z) : Prop :=
  -8640000000000000 <= t <= 8640000000000000.

Definition digit (n : Z) : ascii := ascii_of_nat (48 + Z.to_nat (n mod 10)).

(** [n] in decimal on exactly [width] digits (the low ones). *)
Fixpoint pad (width : nat) (n : Z) : string :=
  match width with
  | O => ""
  | S w => pad w (n / 10) +:+ String (digit n) ""
  end.

Definition year_string (y : Z) : string :=
  if (0 <=? y) && (y <=? 9999) then pad 4 y
  else (if y <? 0 then "-" else "+") +:+ pad 6 (Z.abs y).

(** [Date.prototype.toISOString]: YYYY-MM-DDTHH:mm:ss.sssZ, with the
    expanded six-digit signed year outside 0..9999. *)
Definition toISOString (d : Date) : string :=
  let day := d / msPerDay in
  let t := d mod msPerDay in
  let '(y, m, dd) := civil day in
  year_string y +:+ "-" +:+ pad 2 m +:+ "-" +:+ pad 2 dd +:+ "T" +:+
  pad 2 (t / 3600000) +:+ ":" +:+ pad 2 (t / 60000 mod 60) +:+ ":" +:+
  pad 2 (t / 1000 mod 60) +:+ "." +:+ pad 3 (t mod 1000) +:+ "Z".

(** The values [JSON.stringify] is applied to in the stack: strings and
    objects with their keys in insertion order. *)
#[warnings="-register-all"]
Inductive Json : Type :=
| JStr (s : string)
| JObj (members : list (string * Json)).

Definition dquote : ascii := ascii_of_nat 34.
Definition backslash : ascii := ascii_of_nat 92.

Definition hex_digit (n : nat) : ascii :=
  if (n <? 10)%nat then ascii_of_nat (48 + n) else ascii_of_nat (87 + n).

(** JSON escape of one character. *)
Definition escape_char (c : ascii) : string :=
  let n := nat_of_ascii c in
  if (n =? 34)%nat then String backslash (String dquote "")
  else if (n =? 92)%nat then String backslash (String backslash "")
  else if (n =? 8)%nat then String backslash "b"
  else if (n =? 9)%nat then String backslash "t"
  else if (n =? 10)%nat then String backslash "n"
  else if (n =? 12)%nat then String backslash "f"
  else if (n =? 13)%nat then String backslash "r"
  else if (n <? 32)%nat then
    String backslash
      ("u00" +:+ String (hex_digit (n / 16)) (String (hex_digit (n mod 16)) ""))
  else String c "".

Fixpoint escape (s : string) : string :=
  match s with
  | EmptyString => ""
  | String c rest => escape_char c +:+ escape rest
  end.

Definition quote (s : string) : string :=
  String dquote (escape s) +:+ String dquote "".

Fixpoint stringify (j : Json) : string :=
  match j with
  | JStr s => quote s
  | JObj members =>
      "{" +:+
      (fix go (ms : list (string * Json)) : string :=
         match ms with
         | [] => ""
         | [(k, v)] => quote k +:+ ":" +:+ stringify v
         | (k, v) :: rest => quote k +:+ ":" +:+ stringify v +:+ "," +:+ go rest
         end) members +:+
      "}"
  end.

End JS.

(** ** The stack ([src/lib/api-docs-stack.ts]) *)

Module Stack.

(** [CfnDocumentationPart.LocationProperty]: every member is an optional
    string. *)
Record Location : Type := {
  type : option string;
  name : option string;
  path : option string;
  method : option string;
  statusCode : option string
}.

Record CfnDocumentationPartProps : Type := {
  location : Location;
  part_restApiId : string;
  properties : string
}.

Record CfnDocumentationVersionProps : Type := {
  version_restApiId : string;
  documentationVersion : string;
  version_description : option string
}.

(** The members of [RestApiProps] that vary with the run. *)
Record RestApiProps : Type := {
  deployOptions_description : option string;
  api_description : option string
}.

Record NodejsFunctionProps : Type := {
  entry : string;
  handler : string;
  environment : gmap string string
}.

Record MethodProps : Type := {
  httpMethod : string;
  resourcePath : string;
  operationName : option string;
  authorizerName : option string
}.

(** The constructs the stack instantiates.  Only what the source file
    creates by name is recorded; what the library adds on its own behalf
    (preflight methods, the deployment and its stage, roles and
    permissions) is not. *)
Inductive Construct : Type :=
| RestApi (props : RestApiProps)
| CfnDocumentationVersion (props : CfnDocumentationVersionProps)
| CfnDocumentationPart (props : CfnDocumentationPartProps)
| NodejsFunction (props : NodejsFunctionProps)
| RequestAuthorizer (authorizer_name : string) (handler_node : string)
| Resource (resource_path : string)
| Method (props : MethodProps)
| Model (title : string).

(** A resource of the API, as the stack holds it: its place in the
    construct tree and its URL path. *)
Record ResourceRef : Type := {
  res_node : string;
  res_path : string
}.

Record RestApiRef : Type := {
  api_node : string;
  restApiId : string;
  root : ResourceRef
}.

(** The world a synthesis runs in: the system clock with the number of
    times it has been read, and the construct tree built so far, each
    construct under the path of its node. *)
Record World : Type := {
  clock : nat -> JS.Date;
  reads : nat;
  tree : list (string * Construct)
}.

Inductive SynthError : Type :=
| DuplicateConstruct (node : string).

(** Synthesis steps thread the world and may throw. *)
Definition Synth (A : Type) : Type := World -> SynthError + (A * World).

Definition ret {A : Type} (a : A) : Synth A := fun w => inr (a, w).

Definition bind {A B : Type} (m : Synth A) (k : A -> Synth B) : Synth B :=
  fun w =>
    match m w with
    | inl e => inl e
    | inr (a, w') => k a w'
    end.

#[global] Instance synth_ret : MRet Synth := @ret.
#[global] Instance synth_bind : MBind Synth := fun A B k m => bind m k.

(** [new Date()]: one reading of the clock. *)
Definition newDate : Synth JS.Date :=
  fun w => inr (clock w (reads w),
                {| clock := clock w; reads := S (reads w); tree := tree w |}).

(** The node of a child: the stack itself is the root scope. *)
Definition child_node (scope id : string) : string :=
  if String.eqb scope "" then id else scope +:+ "/" +:+ id.

(** [new C(scope, id, props)]: the construct is attached under [scope];
    a second child with the same id is refused.  The ids the stack passes
    are non-empty and free of path separators; what the library does with
    other ids is left out, and so is every check on [props]. *)
Definition construct (scope id : string) (c : Construct) : Synth string :=
  fun w =>
    let node := child_node scope id in
    if existsb (fun entry => String.eqb entry.1 node) (tree w)
    then inl (DuplicateConstruct node)
    else inr (node, {| clock := clock w; reads := reads w;
                       tree := tree w ++ [(node, c)] |}).

(** The stack is the scope written [this] in the source. *)
Definition this : string := "".

Definition newCfnDocumentationPart
    (scope id : string) (props : CfnDocumentationPartProps) : Synth unit :=
  construct scope id (CfnDocumentationPart props) ;; ret tt.

Definition newCfnDocumentationVersion
    (scope id : string) (props : CfnDocumentationVersionProps) : Synth unit :=
  construct scope id (CfnDocumentationVersion props) ;; ret tt.

(** [new RestApi(scope, id, props)]: the API and its root resource.
    [restApiId] is a token that stands for the id the platform will
    assign; its spelling here is a placeholder for the library's. *)
Definition newRestApi (scope id : string) (props : RestApiProps)
  : Synth RestApiRef :=
  node ← construct scope id (RestApi props);
  rootNode ← construct node "Default" (Resource "/");
  ret {| api_node := node;
         restApiId := "${Token[" +:+ node +:+ ".Ref]}";
         root := {| res_node := rootNode; res_path := "/" |} |}.

(** [parent.addResource(pathPart)]: the child resource and its path.  The
    preflight method the API's CORS options give every resource is left
    out. *)
Definition addResource (parent : ResourceRef) (pathPart : string)
  : Synth ResourceRef :=
  let p := res_path parent in
  let p' := (if String.eqb (String.substring (String.length p - 1) 1 p) "/"
             then p else p +:+ "/") +:+ pathPart in
  node ← construct (res_node parent) pathPart (Resource p');
  ret {| res_node := node; res_path := p' |}.

(** [api.addModel(id, props)]. *)
Definition addModel (api : RestApiRef) (id : string) : Synth string :=
  construct (api_node api) id (Model id).

(** [resource.addMethod(verb, integration, options)]. *)
Definition addMethod (r : ResourceRef) (verb : string)
    (operation : option string) (authorizer : option string) : Synth unit :=
  construct (res_node r) verb
    (Method {| httpMethod := verb; resourcePath := res_path r;
               operationName := operation; authorizerName := authorizer |}) ;;
  ret tt.

(** [new NodejsFunction(scope, id, props)], with the props as written.
    Bundling, which needs the entry file on disk, and the variables the
    library adds to the environment are left out. *)
Definition newNodejsFunction (scope id : string) (props : NodejsFunctionProps)
  : Synth string :=
  construct scope id (NodejsFunction props).

(** [Path.resolve(p)] anchors [p] at the directory the synthesis runs
    in; the path is kept relative to that directory, which is not
    modelled. *)
Definition Path_resolve (p : string) : string := p.

Definition createApi : Synth RestApiRef :=
  now ← newDate;
  let documentationVersion := JS.Number_toString (JS.getTime now) in
  api ← newRestApi this "api"
    {| deployOptions_description :=
         Some ("Description of deployment at " +:+ JS.toISOString now);
       api_description := Some "Blabla description" |};
  newCfnDocumentationVersion this "brute-force-docs-version"
    {| version_restApiId := restApiId api;
       documentationVersion := documentationVersion;
       version_description :=
         Some ("Documentation generated at " +:+ JS.toISOString now) |} ;;
  newCfnDocumentationPart this "api-docs"
    {| location := {| type := Some "API"; name := None; path := None;
                      method := None; statusCode := None |};
       part_restApiId := restApiId api;
       properties := JS.stringify (JS.JObj [
         ("info", JS.JObj [
            ("title", JS.JStr "A custom title");
            ("description", JS.JStr
               ("Documentation description generated at " +:+ JS.toISOString now));
            ("summary", JS.JStr
               ("Documentation summary generated at " +:+ JS.toISOString now));
            ("license", JS.JObj [
               ("name", JS.JStr "MIT");
               ("url", JS.JStr "https://opensource.org/licenses/MIT")]);
            ("contact", JS.JObj [
               ("name", JS.JStr "Some person");
               ("email", JS.JStr "example@example.com");
               ("url", JS.JStr "https://example.com")])])]) |} ;;
  ret api.

Definition authorizer (api : RestApiRef) : Synth string :=
  newCfnDocumentationPart this "some-request-authorizer-doc"
    {| location := {| type := Some "AUTHORIZER"; name := Some "SomeAuthorizer";
                      path := None; method := None; statusCode := None |};
       part_restApiId := restApiId api;
       properties := JS.stringify (JS.JObj [
         ("summary", JS.JStr "Some authorizer summary");
         ("description", JS.JStr "Some authorizer description");
         ("schema", JS.JObj [
            ("type", JS.JStr "string");
            ("format", JS.JStr "uuid");
            ("example", JS.JStr "10c89c8b-fb09-430d-bfc3-3138736598bf")])]) |} ;;
  fn ← newNodejsFunction this "some-authorizer-function"
    {| entry := Path_resolve "src/lambda/getoas3.ts";
       handler := "default";
       environment := ∅ |};
  construct this "some-request-authorizer"
    (RequestAuthorizer "SomeAuthorizer" fn) ;;
  ret "SomeAuthorizer".

Definition createTodo (api : RestApiRef) (todoRoute : ResourceRef) : Synth unit :=
  addModel api "CreateTodo" ;;
  addModel api "CreateTodoResult" ;;
  addMethod todoRoute "POST" (Some "CreateTodo") None.

Definition listTodos (api : RestApiRef) (todoRoute : ResourceRef)
    (authorizer : string) : Synth unit :=
  addModel api "ListTodosResult" ;;
  addMethod todoRoute "GET" (Some "ListTodos") (Some authorizer) ;;
  newCfnDocumentationPart this "ListTodo.Header.Authorization"
    {| location := {| type := Some "REQUEST_HEADER";
                      name := Some "Authorization";
                      path := Some (res_path todoRoute);
                      method := Some "GET"; statusCode := None |};
       part_restApiId := restApiId api;
       properties := JS.stringify (JS.JObj [
         ("description", JS.JStr "Authorization header description");
         ("summary", JS.JStr "Authorization header summary");
         ("x-description", JS.JStr "Authorization header x-description");
         ("x-summary", JS.JStr "Authorization header x-summary")]) |}.

Definition getTodoById (api : RestApiRef) (todoItemRoute : ResourceRef)
  : Synth unit :=
  addModel api "GetTodoByIdResult" ;;
  addMethod todoItemRoute "GET" (Some "GetTodoById") None.

Definition todoRoute (api : RestApiRef) (authorizer : string)
  : Synth ResourceRef :=
  todoRoute ← addResource (root api) "todo";
  createTodo api todoRoute ;;
  listTodos api todoRoute authorizer ;;
  ret todoRoute.

Definition todoItemRoute (api : RestApiRef) (todoRoute : ResourceRef)
  : Synth unit :=
  todoItemRoute ← addResource todoRoute "{todoId}";
  newCfnDocumentationPart this "todoIdDocs"
    {| location := {| type := Some "PATH_PARAMETER"; name := Some "todoId";
                      path := Some (res_path todoRoute);
                      method := Some "GET"; statusCode := None |};
       part_restApiId := restApiId api;
       properties := JS.stringify (JS.JObj [
         ("description", JS.JStr "The id of the todo");
         ("format", JS.JStr "uuid");
         ("example", JS.JStr "01d64dee-e83d-4d26-b15a-5a1cd072b666");
         ("summary", JS.JStr "Sommary of the id of the todo");
         ("schema", JS.JObj [
            ("type", JS.JStr "string");
            ("format", JS.JStr "uuid");
            ("example", JS.JStr "3908c6bb-941a-4c35-9a45-c6034006e8c5")])]) |} ;;
  getTodoById api todoItemRoute.

Definition getOas3Spec (oas3Route : ResourceRef) : Synth unit :=
  newNodejsFunction this "getOas3"
    {| entry := Path_resolve "src/lambda/getoas3.ts";
       handler := "default";
       environment := {[ "restApiId" := "dekq8mivw9"; "stage" := "prod";
                         "extensions" := "apigateway" ]} |} ;;
  addMethod oas3Route "GET" None None.

Definition apiDocsRoute (api : RestApiRef) : Synth unit :=
  apiDocsRoute ← addResource (root api) "api-docs";
  oas3Route ← addResource apiDocsRoute "api-docs.json";
  getOas3Spec oas3Route.

(** The constructor of [ApiDocsStack]: one registration pass. *)
Definition constructor : Synth unit :=
  api ← createApi;
  authorizer ← authorizer api;
  todoRoute ← todoRoute api authorizer;
  todoItemRoute api todoRoute ;;
  apiDocsRoute api.

(** A pass started on an empty tree with the given clock. *)
Definition fresh (c : nat -> JS.Date) : World :=
  {| clock := c; reads := 0; tree := [] |}.

Definition synth (c : nat -> JS.Date) : SynthError + (unit * World) :=
  constructor (fresh c).

(** What a finished pass registered. *)
Definition documentationParts (w : World) : list CfnDocumentationPartProps :=
  omap (fun entry => match entry.2 with
                     | CfnDocumentationPart p => Some p
                     | _ => None
                     end) (tree w).

Definition documentationVersions (w : World) : list CfnDocumentationVersionProps :=
  omap (fun entry => match entry.2 with
                     | CfnDocumentationVersion p => Some p
                     | _ => None
                     end) (tree w).

Definition restApis (w : World) : list RestApiProps :=
  omap (fun entry => match entry.2 with
                     | RestApi p => Some p
                     | _ => None
                     end) (tree w).

Definition succeeded {A : Type} (r : SynthError + A) : bool :=
  match r with
  | inl _ => false
  | inr _ => true
  end.

(** The table of the specification (its section 8), word for word: for a
    location type, whether [name], [path] and [method] are required.  The
    table has five rows; other types are not listed. *)
Definition required_fields (ty : string) : option (bool * bool * bool) :=
  if String.eqb ty "API" then Some (false, false, false)
  else if String.eqb ty "AUTHORIZER" then Some (true, false, false)
  else if String.eqb ty "PATH_PARAMETER" then Some (true, true, true)
  else if String.eqb ty "REQUEST_HEADER" then Some (true, true, true)
  else if String.eqb ty "RESOURCE" then Some (false, true, false)
  else None.

Definition present {A : Type} (o : option A) : bool :=
  match o with
  | Some _ => true
  | None => false
  end.

(** Which of [name], [path] and [method] a location key carries. *)
Definition present_fields (l : Location) : option (bool * bool * bool) :=
  Some (present (name l), present (path l), present (method l)).

(** A location key the table accepts: exactly the required fields are
    present. *)
Definition table_accepts (l : Location) : bool :=
  match type l with
  | Some ty =>
      match required_fields ty with
      | Some (n, p, m) =>
          Bool.eqb (present (name l)) n && Bool.eqb (present (path l)) p
          && Bool.eqb (present (method l)) m
      | None => false
      end
  | None => false
  end.

Definition functions (w : World) : list (string * NodejsFunctionProps) :=
  omap (fun entry => match entry.2 with
                     | NodejsFunction p => Some (entry.1, p)
                     | _ => None
                     end) (tree w).

End Stack.


(** ** Sample invocations *)

Module Samples.

Definition sample_event : Lambda.APIGatewayProxyEventV2 :=
  {| Lambda.rawPath := "/api-docs/api-docs.json";
     Lambda.rawQueryString := "";
     Lambda.headers := ∅;
     Lambda.queryStringParameters := None;
     Lambda.eventBody := None |}.

(** A request that tries to name another API, stage and format. *)
Definition other_event : Lambda.APIGatewayProxyEventV2 :=
  {| Lambda.rawPath := "/api-docs/api-docs.json";
     Lambda.rawQueryString := "restApiId=other&stage=dev&exportType=swagger";
     Lambda.headers := {[ "x-export-type" := "swagger" ]};
     Lambda.queryStringParameters :=
       Some {[ "restApiId" := "other"; "stage" := "dev";
               "exportType" := "swagger" ]};
     Lambda.eventBody := Some "{}" |}.

Definition sample_context : Lambda.Context :=
  {| Lambda.functionName := "getOas3"; Lambda.awsRequestId := "req-1" |}.

(** The environment the stack gives the function (see [getOas3Spec]). *)
Definition deployed_env : gmap string string :=
  {[ "restApiId" := "dekq8mivw9"; "stage" := "prod";
     "extensions" := "apigateway" ]}.

(** A platform that answers every export with the given document. *)
Definition respond (buf : Buffer) : Lambda.Client :=
  fun _ => Lambda.Succeeded
    {| Lambda.contentType := Some "application/json";
       Lambda.contentDisposition := None;
       Lambda.body := Some buf |}.

(** A platform that fails every export with the given error. *)
Definition refuse (e : Lambda.AWSError) : Lambda.Client :=
  fun _ => Lambda.Failed e.

Definition not_found : Lambda.AWSError :=
  {| Lambda.code := "NotFoundException";
     Lambda.message := "Invalid stage identifier specified" |}.

(** A small JSON object (openapi: 3.0.1) followed by U+00E9 and U+20AC,
    as code points. *)
Definition sample_document : JSString :=
  [123; 34; 111; 112; 101; 110; 97; 112; 105; 34; 58; 34; 51; 46; 48; 46;
   49; 34; 125; 0xE9; 0x20AC].

End Samples.

(** ** The SDK client in front of the platform *)

Module Sdk.

(** [client.getExport] checks a request before anything is sent.  The
    fields that make up the URL of the export ([restApiId], [stageName],
    [exportType]) are required, and a URL parameter may not be the empty
    string. *)
Definition sendable (p : Lambda.GetExportRequest) : bool :=
  match Lambda.restApiId p, Lambda.stageName p with
  | Some api, Some stage =>
      negb (String.eqb api "") && negb (String.eqb stage "")
      && negb (String.eqb (Lambda.exportType p) "")
  | _, _ => false
  end.

(** The client made by [new APIGateway(...)].  A request that is not
    sendable is answered by the SDK itself, with the error [refusal]
    builds for it; every other request goes to the platform. *)
Definition client
    (refusal : Lambda.GetExportRequest -> Lambda.AWSError)
    (platform : Lambda.GetExportRequest -> Lambda.Outcome) : Lambda.Client :=
  fun p => if sendable p then platform p else Lambda.Failed (refusal p).



End Sdk.

(** ** Invariants of the decoder; observations on a pass *)

Module Decoder.

(** What the decoder has gathered in the middle of a sequence can only be
    completed to a Unicode scalar value: with [n] continuation bytes to
    come, the first of them between [lo] and [hi], every completion lies
    in 0..10FFFF and on one side of the surrogate range. *)
Definition state_ok (s : Utf8.state) : Prop :=
  match s with
  | Utf8.Start => True
  | Utf8.Cont cp n lo hi =>
      0x80 <= lo /\ hi <= 0xBF /\
      let a := 64 * cp + (lo - 0x80) in
      let b := 64 * cp + (hi - 0x80) in
      match n with
      | 1%nat => 0 <= a /\ b <= 0x10FFFF /\ (b <= 0xD7FF \/ 0xE000 <= a)
      | 2%nat =>
          0 <= 64 * a /\ 64 * b + 63 <= 0x10FFFF
          /\ (64 * b + 63 <= 0xD7FF \/ 0xE000 <= 64 * a)
      | 3%nat =>
          0 <= 4096 * a /\ 4096 * b + 4095 <= 0x10FFFF
          /\ (4096 * b + 4095 <= 0xD7FF \/ 0xE000 <= 4096 * a)
      | _ => False
      end
  end.

End Decoder.

Module Pass.

(** The constructs of one pass made at time [t] on an empty tree. *)
Definition pass_tree (t : JS.Date) : list (string * Stack.Construct) :=
  match Stack.synth (fun _ => t) with
  | inr (_, w) => Stack.tree w
  | inl _ => []
  end.

(** The methods the stack adds with [addMethod], and the authorizers it
    creates. *)
Definition methods (w : Stack.World) : list Stack.MethodProps :=
  omap (fun entry => match entry.2 with
                     | Stack.Method p => Some p
                     | _ => None
                     end) (Stack.tree w).

Definition authorizers (w : Stack.World) : list string :=
  omap (fun entry => match entry.2 with
                     | Stack.RequestAuthorizer n _ => Some n
                     | _ => None
                     end) (Stack.tree w).

(** The path of the child [part] of a resource at [parent], as
    [addResource] forms it: a slash is put between the two unless the
    parent's path ends in one. *)
Definition child_path (parent part : string) : string :=
  (if String.eqb (String.substring (String.length parent - 1) 1 parent) "/"
   then parent else parent +:+ "/") +:+ part.

(** A sample call of [todoItemRoute]: the route [/todo] of an API, on
    an empty tree. *)
Definition sample_api : Stack.RestApiRef :=
  {| Stack.api_node := "api";
     Stack.restApiId := "dekq8mivw9";
     Stack.root := {| Stack.res_node := "api/Default";
                      Stack.res_path := "/" |} |}.

Definition sample_route : Stack.ResourceRef :=
  {| Stack.res_node := "api/Default/todo"; Stack.res_path := "/todo" |}.

Definition after_sample_route : Stack.World :=
  match Stack.todoItemRoute sample_api sample_route
          (Stack.fresh (fun _ => 0)) with
  | inr (_, w) => w
  | inl _ => Stack.fresh (fun _ => 0)
  end.

End Pass.
(** * Properties *)

(** ** UTF-8: decoding undoes encoding *)

Lemma byte_to_of_Z (z : Z) :
  0 <= z < 256 -> Utf8.byte_to_Z (Utf8.byte_of_Z z) = z.
Proof.
  intros Hz. unfold Utf8.byte_to_Z, Utf8.byte_of_Z.
  destruct (Byte.of_N (Z.to_N z)) as [b|] eqn:E.
  - apply Byte.to_of_N in E. rewrite E. lia.
  - apply Byte.of_N_None_iff in E. lia.
Qed.

Lemma byte_of_to_Z (b : Init.Byte.byte) :
  Utf8.byte_of_Z (Utf8.byte_to_Z b) = b.
Proof.
  unfold Utf8.byte_to_Z, Utf8.byte_of_Z.
  rewrite N2Z.id, Byte.of_to_N. reflexivity.
Qed.

(** Linear arithmetic with quotients and remainders by constants. *)
Ltac divmod := Z.div_mod_to_equations; lia.

(** Bit operations on disjoint fields are sums. *)
Lemma lor_high_low (a b k : Z) :
  0 <= k -> 0 <= b < 2 ^ k -> Z.lor (a * 2 ^ k) b = a * 2 ^ k + b.
Proof.
  intros Hk Hb.
  pose proof (Z.add_lor_land (a * 2 ^ k) b) as Hsum.
  assert (Hdisj : Z.land (a * 2 ^ k) b = 0).
  { rewrite <- (Z.mod_small b (2 ^ k)) by lia.
    rewrite <- (Z.land_ones b k) by lia.
    rewrite (Z.land_comm b), Z.land_assoc, Z.land_ones by lia.
    rewrite Z.mod_mul by lia. apply Z.land_0_l. }
  lia.
Qed.

Lemma lor_C0 (x : Z) : 0 <= x < 64 -> Z.lor 0xC0 x = 0xC0 + x.
Proof. intros. apply (lor_high_low 3 x 6); lia. Qed.

Lemma lor_E0 (x : Z) : 0 <= x < 32 -> Z.lor 0xE0 x = 0xE0 + x.
Proof. intros. apply (lor_high_low 7 x 5); lia. Qed.

Lemma lor_F0 (x : Z) : 0 <= x < 16 -> Z.lor 0xF0 x = 0xF0 + x.
Proof. intros. apply (lor_high_low 15 x 4); lia. Qed.

Lemma lor_80 (x : Z) : 0 <= x < 64 -> Z.lor 0x80 x = 0x80 + x.
Proof. intros. apply (lor_high_low 2 x 6); lia. Qed.

Lemma land_3F (x : Z) : Z.land x 0x3F = x mod 64.
Proof. apply (Z.land_ones x 6). lia. Qed.

Lemma land_1F (x : Z) : Z.land x 0x1F = x mod 32.
Proof. apply (Z.land_ones x 5). lia. Qed.

Lemma land_0F (x : Z) : Z.land x 0xF = x mod 16.
Proof. apply (Z.land_ones x 4). lia. Qed.

Lemma land_07 (x : Z) : Z.land x 0x7 = x mod 8.
Proof. apply (Z.land_ones x 3). lia. Qed.

Lemma gather (cp b : Z) :
  Z.lor (Z.shiftl cp 6) (Z.land b 0x3F) = cp * 64 + b mod 64.
Proof.
  rewrite land_3F, Z.shiftl_mul_pow2 by lia.
  apply (lor_high_low cp (b mod 64) 6); [lia|].
  apply Z.mod_pos_bound. lia.
Qed.

(** The four shapes of an encoded scalar value, in arithmetic. *)
Lemma encode1_shape (c : Z) :
  Utf8.is_scalar c = true ->
  Utf8.encode1 c =
    if c <? 0x80 then [c]
    else if c <? 0x800 then [0xC0 + c / 64; 0x80 + c mod 64]
    else if c <? 0x10000 then
      [0xE0 + c / 4096; 0x80 + c / 64 mod 64; 0x80 + c mod 64]
    else
      [0xF0 + c / 262144; 0x80 + c / 4096 mod 64; 0x80 + c / 64 mod 64;
       0x80 + c mod 64].
Proof.
  unfold Utf8.is_scalar, Utf8.encode1. intros Hc.
  assert (0 <= c <= 0x10FFFF) as Hr by lia.
  rewrite !land_3F, !Z.shiftr_div_pow2 by lia.
  change (2 ^ 6) with 64. change (2 ^ 12) with 4096.
  change (2 ^ 18) with 262144.
  destruct (Z.ltb_spec c 0x80); [reflexivity|].
  destruct (Z.ltb_spec c 0x800).
  { rewrite lor_C0, lor_80; [reflexivity|divmod..]. }
  destruct (Z.ltb_spec c 0x10000).
  { rewrite lor_E0, !lor_80; [reflexivity|divmod..]. }
  rewrite lor_F0, !lor_80; [reflexivity|divmod..].
Qed.

(** Settles the comparisons met while stepping the decoder. *)
Ltac settle :=
  repeat match goal with
  | |- context [Z.leb ?a ?b] =>
      first [ rewrite (proj2 (Z.leb_le a b)) by divmod
            | rewrite (proj2 (Z.leb_gt a b)) by divmod ]
  | |- context [Z.eqb ?a ?b] =>
      first [ rewrite (proj2 (Z.eqb_eq a b)) by divmod
            | rewrite (proj2 (Z.eqb_neq a b)) by divmod
            | destruct (Z.eqb_spec a b) ]
  | _ => progress cbn [andb orb app Utf8.run]
  end.

Ltac feed := cbn [app Utf8.run]; unfold Utf8.step, Utf8.lead; settle.

(** Reading the encoding of one scalar value yields that value and
    leaves the decoder at a character boundary. *)
Lemma run_encode1 (c : Z) (rest : list Z) :
  Utf8.is_scalar c = true ->
  Utf8.run Utf8.Start (Utf8.encode1 c ++ rest) = c :: Utf8.run Utf8.Start rest.
Proof.
  intros Hc. rewrite encode1_shape by assumption.
  unfold Utf8.is_scalar in Hc.
  assert (0 <= c <= 0xD7FF \/ 0xE000 <= c <= 0x10FFFF) as Hr by lia.
  clear Hc.
  destruct (Z.ltb_spec c 0x80).
  { feed. reflexivity. }
  destruct (Z.ltb_spec c 0x800).
  { do 2 feed. rewrite gather, land_1F. f_equal. divmod. }
  destruct (Z.ltb_spec c 0x10000).
  { feed. all: do 2 feed.
    all: rewrite !gather, land_0F; f_equal; divmod. }
  feed. all: do 3 feed.
  all: rewrite !gather, land_07; f_equal; divmod.
Qed.

Lemma encode1_octets (c : Z) :
  Utf8.is_scalar c = true ->
  Forall (fun b => 0 <= b < 256) (Utf8.encode1 c).
Proof.
  intros Hc. rewrite encode1_shape by assumption.
  unfold Utf8.is_scalar in Hc.
  assert (0 <= c <= 0x10FFFF) as Hr by lia.
  destruct (Z.ltb_spec c 0x80); [|destruct (Z.ltb_spec c 0x800);
    [|destruct (Z.ltb_spec c 0x10000)]];
    repeat (apply Forall_cons; split; [divmod|]); apply Forall_nil_2.
Qed.

Lemma encodeZ_octets (s : JSString) :
  forallb Utf8.is_scalar s = true ->
  Forall (fun b => 0 <= b < 256) (Utf8.encodeZ s).
Proof.
  induction s as [|c s IH]; cbn [forallb Utf8.encodeZ flat_map].
  - intros _. apply Forall_nil_2.
  - intros [Hc Hs]%andb_prop. apply Forall_app. split.
    + apply encode1_octets, Hc.
    + apply IH, Hs.
Qed.

Lemma octets_of_encode (s : JSString) :
  forallb Utf8.is_scalar s = true ->
  map Utf8.byte_to_Z (Utf8.encode s) = Utf8.encodeZ s.
Proof.
  intros Hs. unfold Utf8.encode.
  pose proof (encodeZ_octets s Hs) as Hoct.
  induction Hoct as [|b bs Hb _ IH]; cbn [map]; [reflexivity|].
  rewrite byte_to_of_Z by assumption. f_equal. apply IH.
Qed.

Lemma run_encodeZ (s : JSString) :
  forallb Utf8.is_scalar s = true ->
  Utf8.run Utf8.Start (Utf8.encodeZ s) = s.
Proof.
  induction s as [|c s IH]; cbn [forallb Utf8.encodeZ flat_map].
  - reflexivity.
  - intros [Hc Hs]%andb_prop. rewrite run_encode1 by assumption.
    f_equal. apply IH, Hs.
Qed.

(** Decoding the encoding of a sequence of scalar values gives it back. *)
Lemma decode_encode (s : JSString) :
  forallb Utf8.is_scalar s = true -> Utf8.decode (Utf8.encode s) = s.
Proof.
  intros Hs. unfold Utf8.decode.
  rewrite octets_of_encode by assumption. apply run_encodeZ, Hs.
Qed.

(** A well-formed buffer survives decoding and re-encoding unchanged. *)
Lemma encode_decode (buf : Buffer) :
  Utf8.well_formed buf -> Utf8.encode (Utf8.decode buf) = buf.
Proof.
  intros (s & Hs & ->). rewrite decode_encode by assumption. reflexivity.
Qed.

(** ** The export handler *)

Section HandlerRun.
Import Lambda.
Variables (client : Client) (env : gmap string string)
          (event : APIGatewayProxyEventV2) (context : Context).

Lemma handler_failed (e : AWSError) :
  client (getExportParams env event context) = Failed e ->
  handler client env event context =
    ([GetExportCall (getExportParams env event context); CallbackErr e],
     Throw (TypeError "Cannot read properties of null (reading 'body')")).
Proof.
  intros H. unfold handler. rewrite H. reflexivity.
Qed.

Lemma handler_succeeded (d : GetExportResponse) (buf : Buffer) :
  client (getExportParams env event context) = Succeeded d ->
  body d = Some buf ->
  handler client env event context =
    ([GetExportCall (getExportParams env event context);
      CallbackOk {| statusCode := 200;
                    responseHeaders :=
                      {[ "Access-Control-Allow-Origin" := "*" ]};
                    responseBody := Utf8.decode buf |}],
     Normal).
Proof.
  intros H Hb. unfold handler. rewrite H.
  cbn [callback_args getExportCallback]. rewrite Hb. reflexivity.
Qed.

(** Whatever the platform answers, it has been asked exactly once, with
    the parameters built from the environment. *)
Lemma handler_platform_calls :
  platform_calls (handler client env event context) =
    [getExportParams env event context].
Proof.
  unfold handler.
  destruct (client (getExportParams env event context)) as [e|d];
    cbn [callback_args getExportCallback].
  - reflexivity.
  - destruct (body d); reflexivity.
Qed.

End HandlerRun.

(** C1, as stated, fails: a document that is not well-formed UTF-8 is not
    returned as it is.  The platform answers with the single octet FF; the
    body handed to the callback is the replacement character U+FFFD, whose
    octets are EF BF BD. *)
Lemma export_transcodes_document :
  Lambda.documents
    (Lambda.handler (Samples.respond [Byte.xff]) Samples.deployed_env
       Samples.sample_event Samples.sample_context) =
    [ {| Lambda.statusCode := 200;
         Lambda.responseHeaders := {[ "Access-Control-Allow-Origin" := "*" ]};
         Lambda.responseBody := [0xFFFD] |} ]
  /\ Utf8.encode [0xFFFD] = [Byte.xef; Byte.xbf; Byte.xbd]
  /\ Utf8.encode [0xFFFD] <> [Byte.xff].
Proof. split; [reflexivity|split; [reflexivity|discriminate]]. Qed.

(** C1, amended: when the platform succeeds with a document [D] that is
    well-formed UTF-8, the handler calls back once, with statusCode 200,
    the single header Access-Control-Allow-Origin: *, and as body the text
    of [D], whose UTF-8 octets are exactly [D]; nothing else is done to
    the document. *)
Theorem export_success_pass_through
    (client : Lambda.Client) (env : gmap string string)
    (event : Lambda.APIGatewayProxyEventV2) (context : Lambda.Context)
    (d : Lambda.GetExportResponse) (D : Buffer) :
  client (Lambda.getExportParams env event context) = Lambda.Succeeded d ->
  Lambda.body d = Some D ->
  Utf8.well_formed D ->
  exists res : Lambda.Response,
    Lambda.handler client env event context =
      ([Lambda.GetExportCall (Lambda.getExportParams env event context);
        Lambda.CallbackOk res], Lambda.Normal)
    /\ Lambda.statusCode res = 200
    /\ Lambda.responseHeaders res = {[ "Access-Control-Allow-Origin" := "*" ]}
    /\ Lambda.responseBody res = Utf8.decode D
    /\ Utf8.encode (Lambda.responseBody res) = D.
Proof.
  intros Hc Hb Hwf. eexists. split.
  - eapply handler_succeeded; eassumption.
  - cbn [Lambda.statusCode Lambda.responseHeaders Lambda.responseBody].
    repeat split. apply encode_decode, Hwf.
Qed.

Lemma export_success_pass_through_witness :
  exists res : Lambda.Response,
    Lambda.handler (Samples.respond (Utf8.encode Samples.sample_document))
      Samples.deployed_env Samples.sample_event Samples.sample_context =
      ([Lambda.GetExportCall
          (Lambda.getExportParams Samples.deployed_env Samples.sample_event
             Samples.sample_context);
        Lambda.CallbackOk res], Lambda.Normal)
    /\ Lambda.statusCode res = 200
    /\ Lambda.responseHeaders res = {[ "Access-Control-Allow-Origin" := "*" ]}
    /\ Lambda.responseBody res = Utf8.decode (Utf8.encode Samples.sample_document)
    /\ Utf8.encode (Lambda.responseBody res) = Utf8.encode Samples.sample_document.
Proof.
  eapply export_success_pass_through.
  - reflexivity.
  - reflexivity.
  - exists Samples.sample_document. split; reflexivity.
Defined.

(** C2: when the platform call fails with error [e], the platform has
    been called exactly once (no retry), the callback has been given [e]
    itself and nothing else, and the callback is never given a response:
    no document is returned. *)
Theorem export_failure_propagates
    (client : Lambda.Client) (env : gmap string string)
    (event : Lambda.APIGatewayProxyEventV2) (context : Lambda.Context)
    (e : Lambda.AWSError) :
  client (Lambda.getExportParams env event context) = Lambda.Failed e ->
  Lambda.platform_calls (Lambda.handler client env event context) =
    [Lambda.getExportParams env event context]
  /\ Lambda.reported_errors (Lambda.handler client env event context) = [e]
  /\ Lambda.documents (Lambda.handler client env event context) = [].
Proof.
  intros H. rewrite (handler_failed _ _ _ _ _ H). repeat split.
Qed.

Lemma export_failure_propagates_witness :
  Lambda.platform_calls
    (Lambda.handler (Samples.refuse Samples.not_found) Samples.deployed_env
       Samples.sample_event Samples.sample_context) =
    [Lambda.getExportParams Samples.deployed_env Samples.sample_event
       Samples.sample_context]
  /\ Lambda.reported_errors
       (Lambda.handler (Samples.refuse Samples.not_found) Samples.deployed_env
          Samples.sample_event Samples.sample_context) = [Samples.not_found]
  /\ Lambda.documents
       (Lambda.handler (Samples.refuse Samples.not_found) Samples.deployed_env
          Samples.sample_event Samples.sample_context) = [].
Proof.
  apply export_failure_propagates. reflexivity.
Defined.



(** C4: the error branch of the callback does not end it.  Given an
    error, the callback reports it and then goes on exactly as it would
    without the error; with the [null] data that comes with an error, the
    read of [data.body] throws after the error has been reported. *)
Theorem error_branch_falls_through
    (e : Lambda.AWSError) (data : option Lambda.GetExportResponse) :
  Lambda.getExportCallback (Some e) data =
    (Lambda.CallbackErr e :: (Lambda.getExportCallback None data).1,
     (Lambda.getExportCallback None data).2)
  /\ Lambda.getExportCallback (Some e) None =
       ([Lambda.CallbackErr e],
        Lambda.Throw
          (Lambda.TypeError "Cannot read properties of null (reading 'body')"))
  /\ forall (client : Lambda.Client) (env : gmap string string)
            (event : Lambda.APIGatewayProxyEventV2) (context : Lambda.Context),
       client (Lambda.getExportParams env event context) = Lambda.Failed e ->
       Lambda.handler client env event context =
         ([Lambda.GetExportCall (Lambda.getExportParams env event context);
           Lambda.CallbackErr e],
          Lambda.Throw
            (Lambda.TypeError "Cannot read properties of null (reading 'body')")).
Proof.
  split; [|split].
  - unfold Lambda.getExportCallback.
    destruct data as [d|]; [destruct (Lambda.body d)|]; reflexivity.
  - reflexivity.
  - intros client env event context H. apply handler_failed, H.
Qed.

(** C10: the request sent to the platform does not depend on the incoming
    event (nor on the invocation context): two invocations whose
    environments agree on [restApiId] and [stage] send the same parameters,
    whatever their events and whatever the platform answers. *)
Theorem export_request_ignores_event
    (client1 client2 : Lambda.Client) (env1 env2 : gmap string string)
    (event1 event2 : Lambda.APIGatewayProxyEventV2)
    (context1 context2 : Lambda.Context) :
  env1 !! "restApiId" = env2 !! "restApiId" ->
  env1 !! "stage" = env2 !! "stage" ->
  Lambda.getExportParams env1 event1 context1 =
    Lambda.getExportParams env2 event2 context2
  /\ Lambda.platform_calls (Lambda.handler client1 env1 event1 context1) =
     Lambda.platform_calls (Lambda.handler client2 env2 event2 context2).
Proof.
  intros Hid Hstage.
  assert (Lambda.getExportParams env1 event1 context1 =
          Lambda.getExportParams env2 event2 context2) as Heq.
  { unfold Lambda.getExportParams. rewrite Hid, Hstage. reflexivity. }
  split; [exact Heq|]. rewrite !handler_platform_calls, Heq. reflexivity.
Qed.

Lemma export_request_ignores_event_witness :
  Samples.sample_event <> Samples.other_event
  /\ Lambda.getExportParams Samples.deployed_env Samples.sample_event
       Samples.sample_context =
     Lambda.getExportParams Samples.deployed_env Samples.other_event
       Samples.sample_context
  /\ Lambda.platform_calls
       (Lambda.handler (Samples.respond []) Samples.deployed_env
          Samples.sample_event Samples.sample_context) =
     Lambda.platform_calls
       (Lambda.handler (Samples.refuse Samples.not_found) Samples.deployed_env
          Samples.other_event Samples.sample_context).
Proof.
  split; [discriminate|].
  apply export_request_ignores_event; reflexivity.
Defined.

(** ** Dates and numerals *)

Lemma era_bounds (doe : Z) :
  0 <= doe < 146097 ->
  0 <= (doe - doe / 1460 + doe / 36524 - doe / 146096) / 365 <= 399
  /\ 0 <= doe - (365 * ((doe - doe / 1460 + doe / 36524 - doe / 146096) / 365)
              + (doe - doe / 1460 + doe / 36524 - doe / 146096) / 365 / 4
              - (doe - doe / 1460 + doe / 36524 - doe / 146096) / 365 / 100) <= 365.
Proof. intros H. divmod. Qed.

Lemma civil_spec (day : Z) :
  exists y m d : Z,
    JS.civil day = (y, m, d)
    /\ JS.days_from_civil y m d = day
    /\ 1 <= m <= 12 /\ 1 <= d <= 31
    /\ (day + 719468) / 146097 * 400 <= y <= (day + 719468) / 146097 * 400 + 400.
Proof.
  unfold JS.civil, JS.days_from_civil.
  set (z := day + 719468).
  set (era := z / 146097). set (doe := z mod 146097).
  assert (0 <= doe < 146097) as Hdoe by (apply Z.mod_pos_bound; lia).
  assert (z = era * 146097 + doe) as Hz by (unfold era, doe; divmod).
  destruct (era_bounds doe Hdoe) as [Hyoe Hdoy].
  set (yoe := (doe - doe / 1460 + doe / 36524 - doe / 146096) / 365) in *.
  set (doy := doe - (365 * yoe + yoe / 4 - yoe / 100)) in *.
  set (mp := (5 * doy + 2) / 153).
  assert (0 <= mp <= 11) as Hmp by (unfold mp; divmod).
  do 3 eexists. split; [reflexivity|].
  destruct (Z.ltb_spec mp 10).
  - destruct (Z.leb_spec (mp + 3) 2); [lia|]. destruct (Z.ltb_spec 2 (mp + 3)); [|lia].
    replace (mp + 3 - 3) with mp by lia.
    replace ((yoe + era * 400 + 0) / 400) with era by divmod.
    replace ((yoe + era * 400 + 0) mod 400) with yoe by divmod.
    repeat split; unfold mp in *; divmod.
  - destruct (Z.leb_spec (mp - 9) 2); [|lia]. destruct (Z.ltb_spec 2 (mp - 9)); [lia|].
    replace (mp - 9 + 9) with mp by lia.
    replace ((yoe + era * 400 + 1 - 1) / 400) with era by divmod.
    replace ((yoe + era * 400 + 1 - 1) mod 400) with yoe by divmod.
    repeat split; unfold mp in *; divmod.
Qed.

Lemma append_cons (c : ascii) (a r : string) :
  String c a +:+ r = String c (a +:+ r).
Proof. reflexivity. Qed.

Lemma length_append (a b : string) :
  String.length (a +:+ b) = (String.length a + String.length b)%nat.
Proof.
  induction a as [|c a IH]; [reflexivity|].
  rewrite append_cons. cbn [String.length]. rewrite IH. reflexivity.
Qed.

Lemma append_inj (a a' r r' : string) :
  String.length a = String.length a' ->
  a +:+ r = a' +:+ r' -> a = a' /\ r = r'.
Proof.
  revert a'. induction a as [|c a IH]; intros [|c' a']; cbn [String.length];
    try discriminate.
  - auto.
  - rewrite !append_cons. intros Hl He.
    injection Hl as Hl. injection He as -> He.
    destruct (IH a' Hl He) as [-> ->]. auto.
Qed.

Lemma pad_length (w : nat) (n : Z) : String.length (JS.pad w n) = w.
Proof.
  revert n. induction w as [|w IH]; intros n; cbn [JS.pad]; [reflexivity|].
  rewrite length_append, IH. cbn [String.length]. lia.
Qed.

Lemma digit_inj (n n' : Z) : JS.digit n = JS.digit n' -> n mod 10 = n' mod 10.
Proof.
  unfold JS.digit. intros H.
  apply (f_equal nat_of_ascii) in H.
  pose proof (Z.mod_pos_bound n 10 eq_refl).
  pose proof (Z.mod_pos_bound n' 10 eq_refl).
  rewrite !nat_ascii_embedding in H by lia. lia.
Qed.

Lemma pad_inj (w : nat) (n n' : Z) :
  JS.pad w n = JS.pad w n' -> n mod 10 ^ Z.of_nat w = n' mod 10 ^ Z.of_nat w.
Proof.
  revert n n'. induction w as [|w IH]; intros n n'.
  - intros _. cbn. rewrite !Z.mod_1_r. reflexivity.
  - cbn [JS.pad]. intros H.
    apply append_inj in H; [|rewrite !pad_length; reflexivity].
    destruct H as [Hhi Hlo]. injection Hlo as Hlo.
    apply IH in Hhi. apply digit_inj in Hlo.
    rewrite Nat2Z.inj_succ, Z.pow_succ_r by lia.
    rewrite !(Z.rem_mul_r _ 10) by lia. lia.
Qed.

Lemma pad_inj_small (w : nat) (n n' : Z) :
  0 <= n < 10 ^ Z.of_nat w -> 0 <= n' < 10 ^ Z.of_nat w ->
  JS.pad w n = JS.pad w n' -> n = n'.
Proof.
  intros Hn Hn' H. apply pad_inj in H.
  rewrite !Z.mod_small in H by assumption. exact H.
Qed.

Lemma year_string_length (y : Z) :
  String.length (JS.year_string y) =
    if (0 <=? y) && (y <=? 9999) then 4%nat else 7%nat.
Proof.
  unfold JS.year_string. destruct ((0 <=? y) && (y <=? 9999)).
  - apply pad_length.
  - rewrite length_append, pad_length. destruct (y <? 0); reflexivity.
Qed.

Lemma year_string_inj (y y' : Z) :
  -999999 <= y <= 999999 -> -999999 <= y' <= 999999 ->
  JS.year_string y = JS.year_string y' -> y = y'.
Proof.
  intros Hy Hy' H.
  pose proof (f_equal String.length H) as Hlen.
  rewrite !year_string_length in Hlen.
  unfold JS.year_string in H.
  destruct ((0 <=? y) && (y <=? 9999)) eqn:E;
    destruct ((0 <=? y') && (y' <=? 9999)) eqn:E'; try discriminate.
  - apply (pad_inj_small 4) in H; [exact H|cbn; lia..].
  - destruct (Z.ltb_spec y 0); destruct (Z.ltb_spec y' 0);
      (apply append_inj in H; [|reflexivity]); destruct H as [Hs H];
      try discriminate.
    all: apply (pad_inj_small 6) in H; [lia|cbn; lia..].
Qed.

(** Splits off the leading field of two equal timestamps. *)
Ltac peel H Hf :=
  apply append_inj in H;
  [destruct H as [Hf H]
  |first [reflexivity | rewrite !pad_length; reflexivity | assumption]].

Lemma toISOString_inj (d1 d2 : JS.Date) :
  JS.valid_time d1 -> JS.valid_time d2 ->
  JS.toISOString d1 = JS.toISOString d2 -> d1 = d2.
Proof.
  unfold JS.valid_time, JS.toISOString, JS.msPerDay. intros V1 V2 H.
  destruct (civil_spec (d1 / 86400000)) as (y1 & m1 & e1 & C1 & I1 & Hm1 & He1 & Hy1).
  destruct (civil_spec (d2 / 86400000)) as (y2 & m2 & e2 & C2 & I2 & Hm2 & He2 & Hy2).
  rewrite C1, C2 in H.
  assert (String.length (JS.year_string y1) = String.length (JS.year_string y2))
    as Hlen.
  { apply (f_equal String.length) in H.
    rewrite !length_append, !pad_length in H. lia. }
  peel H Hyear. peel H Hsep1. peel H Hmonth. peel H Hsep2. peel H Hday.
  peel H Hsep3. peel H Hhour. peel H Hsep4. peel H Hmin. peel H Hsep5.
  peel H Hsec. peel H Hsep6. peel H Hms.
  apply year_string_inj in Hyear; [|divmod..].
  apply (pad_inj_small 2) in Hmonth; [|cbn; lia..].
  apply (pad_inj_small 2) in Hday; [|cbn; lia..].
  apply (pad_inj_small 2) in Hhour; [|cbn; divmod..].
  apply (pad_inj_small 2) in Hmin; [|cbn; divmod..].
  apply (pad_inj_small 2) in Hsec; [|cbn; divmod..].
  apply (pad_inj_small 3) in Hms; [|cbn; divmod..].
  subst y2 m2 e2. rewrite I1 in I2. divmod.
Qed.

Lemma Number_parse_toString (n : Z) :
  JS.Number_parse (JS.Number_toString n) = Some n.
Proof.
  unfold JS.Number_parse, JS.Number_toString.
  rewrite DecimalString.NilEmpty.isi. cbn [option_map].
  rewrite DecimalZ.of_to. reflexivity.
Qed.

Lemma Number_toString_inj (n n' : Z) :
  JS.Number_toString n = JS.Number_toString n' -> n = n'.
Proof.
  intros H. apply (f_equal JS.Number_parse) in H.
  rewrite !Number_parse_toString in H. congruence.
Qed.

(** ** The registration pass *)

(** One pass, whatever the clock shows: it succeeds, reads the clock
    once, and registers one API, one documentation version, four
    documentation parts and two functions. *)
Lemma synth_run (c : nat -> JS.Date) :
  exists w : Stack.World,
    Stack.synth c = inr (tt, w)
    /\ Stack.reads w = 1%nat
    /\ Stack.restApis w =
         [ {| Stack.deployOptions_description :=
                Some ("Description of deployment at " +:+ JS.toISOString (c 0%nat));
              Stack.api_description := Some "Blabla description" |} ]
    /\ Stack.documentationVersions w =
         [ {| Stack.version_restApiId := "${Token[api.Ref]}";
              Stack.documentationVersion :=
                JS.Number_toString (JS.getTime (c 0%nat));
              Stack.version_description :=
                Some ("Documentation generated at " +:+ JS.toISOString (c 0%nat)) |} ]
    /\ Stack.location <$> Stack.documentationParts w =
         [ {| Stack.type := Some "API"; Stack.name := None;
              Stack.path := None; Stack.method := None;
              Stack.statusCode := None |};
           {| Stack.type := Some "AUTHORIZER";
              Stack.name := Some "SomeAuthorizer";
              Stack.path := None; Stack.method := None;
              Stack.statusCode := None |};
           {| Stack.type := Some "REQUEST_HEADER";
              Stack.name := Some "Authorization";
              Stack.path := Some "/todo"; Stack.method := Some "GET";
              Stack.statusCode := None |};
           {| Stack.type := Some "PATH_PARAMETER";
              Stack.name := Some "todoId";
              Stack.path := Some "/todo"; Stack.method := Some "GET";
              Stack.statusCode := None |} ]
    /\ Stack.properties <$> (Stack.documentationParts w !! 0%nat) =
         Some (JS.stringify (JS.JObj [
           ("info", JS.JObj [
              ("title", JS.JStr "A custom title");
              ("description", JS.JStr
                 ("Documentation description generated at "
                  +:+ JS.toISOString (c 0%nat)));
              ("summary", JS.JStr
                 ("Documentation summary generated at "
                  +:+ JS.toISOString (c 0%nat)));
              ("license", JS.JObj [
                 ("name", JS.JStr "MIT");
                 ("url", JS.JStr "https://opensource.org/licenses/MIT")]);
              ("contact", JS.JObj [
                 ("name", JS.JStr "Some person");
                 ("email", JS.JStr "example@example.com");
                 ("url", JS.JStr "https://example.com")])])]))
    /\ Stack.environment <$> (snd <$> Stack.functions w) =
         [∅; Samples.deployed_env].
Proof.
  eexists. split.
  { cbv -[JS.toISOString JS.Number_toString JS.stringify
          insert singletonM empty].
    reflexivity. }
  cbv -[JS.toISOString JS.Number_toString JS.stringify
        insert singletonM empty Samples.deployed_env].
  repeat split.
Qed.

(** C5: two passes made at two different times register two different
    version identifiers and carry two different creation timestamps.  The
    identifier is the decimal numeral of the creation time in milliseconds,
    so it reads back as that time and a later pass has the larger one.
    (The description is not an input of the pass: it is built from the
    same time.) *)
Theorem version_ids_follow_time (c1 c2 : nat -> JS.Date) :
  JS.valid_time (c1 0%nat) -> JS.valid_time (c2 0%nat) ->
  c1 0%nat <> c2 0%nat ->
  exists (w1 w2 : Stack.World) (v1 v2 : Stack.CfnDocumentationVersionProps),
    Stack.synth c1 = inr (tt, w1) /\ Stack.synth c2 = inr (tt, w2)
    /\ Stack.documentationVersions w1 = [v1]
    /\ Stack.documentationVersions w2 = [v2]
    /\ Stack.documentationVersion v1 <> Stack.documentationVersion v2
    /\ Stack.version_description v1 =
         Some ("Documentation generated at " +:+ JS.toISOString (c1 0%nat))
    /\ Stack.version_description v2 =
         Some ("Documentation generated at " +:+ JS.toISOString (c2 0%nat))
    /\ JS.toISOString (c1 0%nat) <> JS.toISOString (c2 0%nat)
    /\ Stack.version_description v1 <> Stack.version_description v2
    /\ JS.Number_parse (Stack.documentationVersion v1) = Some (c1 0%nat)
    /\ JS.Number_parse (Stack.documentationVersion v2) = Some (c2 0%nat)
    /\ (c1 0%nat < c2 0%nat ->
        forall n1 n2 : Z,
          JS.Number_parse (Stack.documentationVersion v1) = Some n1 ->
          JS.Number_parse (Stack.documentationVersion v2) = Some n2 ->
          n1 < n2).
Proof.
  intros V1 V2 Hne.
  destruct (synth_run c1) as (w1 & R1 & _ & _ & D1 & _).
  destruct (synth_run c2) as (w2 & R2 & _ & _ & D2 & _).
  assert (JS.toISOString (c1 0%nat) <> JS.toISOString (c2 0%nat)) as Hiso.
  { intros H. apply Hne. apply toISOString_inj; assumption. }
  do 4 eexists.
  split; [exact R1|]. split; [exact R2|].
  split; [exact D1|]. split; [exact D2|].
  cbn [Stack.documentationVersion Stack.version_description].
  unfold JS.getTime. rewrite !Number_parse_toString.
  repeat split; try assumption.
  - intros H. apply Hne, Number_toString_inj, H.
  - intros H. injection H as H.
    apply append_inj in H; [|reflexivity]. apply Hiso, H.
  - intros Hlt n1 n2 [= <-] [= <-]. exact Hlt.
Qed.

Lemma version_ids_follow_time_witness :
  exists (w1 w2 : Stack.World) (v1 v2 : Stack.CfnDocumentationVersionProps),
    Stack.synth (fun _ => 1700000000000) = inr (tt, w1)
    /\ Stack.synth (fun _ => 1700000000001) = inr (tt, w2)
    /\ Stack.documentationVersions w1 = [v1]
    /\ Stack.documentationVersions w2 = [v2]
    /\ Stack.documentationVersion v1 <> Stack.documentationVersion v2
    /\ Stack.version_description v1 =
         Some ("Documentation generated at " +:+ JS.toISOString 1700000000000)
    /\ Stack.version_description v2 =
         Some ("Documentation generated at " +:+ JS.toISOString 1700000000001)
    /\ JS.toISOString 1700000000000 <> JS.toISOString 1700000000001
    /\ Stack.version_description v1 <> Stack.version_description v2
    /\ JS.Number_parse (Stack.documentationVersion v1) = Some 1700000000000
    /\ JS.Number_parse (Stack.documentationVersion v2) = Some 1700000000001
    /\ (1700000000000 < 1700000000001 ->
        forall n1 n2 : Z,
          JS.Number_parse (Stack.documentationVersion v1) = Some n1 ->
          JS.Number_parse (Stack.documentationVersion v2) = Some n2 ->
          n1 < n2).
Proof.
  apply (version_ids_follow_time (fun _ => 1700000000000)
                                 (fun _ => 1700000000001)).
  - unfold JS.valid_time. lia.
  - unfold JS.valid_time. lia.
  - lia.
Defined.

(** C6: in one pass the clock is read exactly once, and that one reading
    is the timestamp of the deployment description, of the documentation
    version description and of the description and summary in the API
    documentation part; the version identifier is the same reading in
    milliseconds.  This holds whatever the clock would show on later
    readings. *)
Theorem single_timestamp_per_pass (c : nat -> JS.Date) :
  exists (w : Stack.World) (ts : string),
    Stack.synth c = inr (tt, w)
    /\ Stack.reads w = 1%nat
    /\ ts = JS.toISOString (c 0%nat)
    /\ Stack.deployOptions_description <$> Stack.restApis w =
         [Some ("Description of deployment at " +:+ ts)]
    /\ Stack.version_description <$> Stack.documentationVersions w =
         [Some ("Documentation generated at " +:+ ts)]
    /\ Stack.documentationVersion <$> Stack.documentationVersions w =
         [JS.Number_toString (JS.getTime (c 0%nat))]
    /\ Stack.properties <$> (Stack.documentationParts w !! 0%nat) =
         Some (JS.stringify (JS.JObj [
           ("info", JS.JObj [
              ("title", JS.JStr "A custom title");
              ("description", JS.JStr
                 ("Documentation description generated at " +:+ ts));
              ("summary", JS.JStr
                 ("Documentation summary generated at " +:+ ts));
              ("license", JS.JObj [
                 ("name", JS.JStr "MIT");
                 ("url", JS.JStr "https://opensource.org/licenses/MIT")]);
              ("contact", JS.JObj [
                 ("name", JS.JStr "Some person");
                 ("email", JS.JStr "example@example.com");
                 ("url", JS.JStr "https://example.com")])])])).
Proof.
  destruct (synth_run c) as (w & R & Hreads & Hapi & Hver & _ & Hpart & _).
  exists w, (JS.toISOString (c 0%nat)).
  rewrite Hapi, Hver, Hpart. repeat split; assumption.
Qed.

(** C7, as stated, fails: nothing accepts or rejects a location key.  A
    key of type API that also carries a name, which the table rejects, is
    registered like any other. *)
Lemma table_rejected_key_is_registered :
  Stack.table_accepts
    {| Stack.type := Some "API"; Stack.name := Some "Extra";
       Stack.path := None; Stack.method := None;
       Stack.statusCode := None |} = false
  /\ Stack.newCfnDocumentationPart Stack.this "extra-docs"
       {| Stack.location :=
            {| Stack.type := Some "API"; Stack.name := Some "Extra";
               Stack.path := None; Stack.method := None;
               Stack.statusCode := None |};
          Stack.part_restApiId := "dekq8mivw9";
          Stack.properties := "{}" |}
       (Stack.fresh (fun _ => 0)) =
     inr (tt,
          {| Stack.clock := fun _ => 0;
             Stack.reads := 0;
             Stack.tree :=
               [("extra-docs",
                 Stack.CfnDocumentationPart
                   {| Stack.location :=
                        {| Stack.type := Some "API";
                           Stack.name := Some "Extra";
                           Stack.path := None; Stack.method := None;
                           Stack.statusCode := None |};
                      Stack.part_restApiId := "dekq8mivw9";
                      Stack.properties := "{}" |})] |}).
Proof. split; reflexivity. Qed.

(** C7, amended: the stack registers four location keys, of types API,
    AUTHORIZER, REQUEST_HEADER and PATH_PARAMETER (none of type RESOURCE),
    and each carries exactly the fields the table requires for its type:
    none for API, the name for AUTHORIZER, name, path and method for the
    other two. *)
Theorem registered_keys_follow_table (c : nat -> JS.Date) :
  exists w : Stack.World,
    Stack.synth c = inr (tt, w)
    /\ Stack.type <$> (Stack.location <$> Stack.documentationParts w) =
         [Some "API"; Some "AUTHORIZER"; Some "REQUEST_HEADER";
          Some "PATH_PARAMETER"]
    /\ Forall (fun l => Stack.table_accepts l = true)
              (Stack.location <$> Stack.documentationParts w)
    /\ Forall (fun l => Stack.present_fields l =
                          match Stack.type l with
                          | Some ty => Stack.required_fields ty
                          | None => None
                          end)
              (Stack.location <$> Stack.documentationParts w).
Proof.
  destruct (synth_run c) as (w & R & _ & _ & _ & Hloc & _).
  exists w. rewrite Hloc. split; [exact R|]. split; [reflexivity|].
  split; repeat constructor.
Qed.

(** C8, as stated, fails: a PATH_PARAMETER key without a method is
    registered; no MalformedLocationKey is raised before the part goes to
    the platform. *)
Lemma path_parameter_without_method_is_registered :
  Stack.succeeded
    (Stack.newCfnDocumentationPart Stack.this "todoIdDocs"
       {| Stack.location :=
            {| Stack.type := Some "PATH_PARAMETER";
               Stack.name := Some "todoId";
               Stack.path := Some "/todo"; Stack.method := None;
               Stack.statusCode := None |};
          Stack.part_restApiId := "dekq8mivw9";
          Stack.properties := "{}" |}
       (Stack.fresh (fun _ => 0))) = true
  /\ Stack.table_accepts
       {| Stack.type := Some "PATH_PARAMETER"; Stack.name := Some "todoId";
          Stack.path := Some "/todo"; Stack.method := None;
          Stack.statusCode := None |} = false.
Proof. split; reflexivity. Qed.

(** C8, amended: registering a documentation part checks nothing about
    its location key and knows no MalformedLocationKey: whether a
    registration is accepted does not depend on the part at all, so a
    PATH_PARAMETER key without a method is handed on unchecked.  The one
    PATH_PARAMETER part the stack registers supplies name, path and
    method. *)
Theorem registration_validates_nothing
    (scope id : string) (props props' : Stack.CfnDocumentationPartProps)
    (w : Stack.World) :
  Stack.succeeded (Stack.newCfnDocumentationPart scope id props w) =
    Stack.succeeded (Stack.newCfnDocumentationPart scope id props' w)
  /\ (forall c : nat -> JS.Date,
        exists w' : Stack.World,
          Stack.synth c = inr (tt, w')
          /\ filter (fun l => Stack.type l = Some "PATH_PARAMETER")
                    (Stack.location <$> Stack.documentationParts w') =
             [ {| Stack.type := Some "PATH_PARAMETER";
                  Stack.name := Some "todoId";
                  Stack.path := Some "/todo"; Stack.method := Some "GET";
                  Stack.statusCode := None |} ]).
Proof.
  split.
  - unfold Stack.newCfnDocumentationPart, Stack.construct, mbind,
      Stack.synth_bind, Stack.bind, Stack.ret.
    destruct (existsb _ (Stack.tree w)); reflexivity.
  - intros c. destruct (synth_run c) as (w' & R & _ & _ & _ & Hloc & _).
    exists w'. rewrite Hloc. split; [exact R|reflexivity].
Qed.

(** C9: every request asks for format oas30 with the documentation
    extension.  The two values are literals of the handler: they are the
    same for every environment, event and context, the [extensions]
    variable of the environment does not reach them, and this is what the
    platform is called with.  In particular the function the stack
    deploys, whose environment sets [extensions] to [apigateway], still
    asks for [documentation]. *)
Theorem export_format_is_fixed
    (client : Lambda.Client) (env : gmap string string)
    (event : Lambda.APIGatewayProxyEventV2) (context : Lambda.Context)
    (v : string) :
  Lambda.exportType (Lambda.getExportParams env event context) = "oas30"
  /\ Lambda.parameters (Lambda.getExportParams env event context) =
       {[ "extensions" := "documentation" ]}
  /\ Lambda.getExportParams (<[ "extensions" := v ]> env) event context =
       Lambda.getExportParams env event context
  /\ (exists p : Lambda.GetExportRequest,
        Lambda.platform_calls (Lambda.handler client env event context) = [p]
        /\ Lambda.exportType p = "oas30"
        /\ Lambda.parameters p = {[ "extensions" := "documentation" ]})
  /\ (forall c : nat -> JS.Date,
        exists (w : Stack.World) (deployed : gmap string string),
          Stack.synth c = inr (tt, w)
          /\ last (Stack.environment <$> (snd <$> Stack.functions w)) =
               Some deployed
          /\ deployed !! "extensions" = Some "apigateway"
          /\ Lambda.parameters
               (Lambda.getExportParams deployed event context) !! "extensions" =
               Some "documentation").
Proof.
  split; [reflexivity|]. split; [reflexivity|]. split.
  { unfold Lambda.getExportParams.
    rewrite !lookup_insert_ne by discriminate. reflexivity. }
  split.
  { eexists. split; [apply handler_platform_calls|]. split; reflexivity. }
  intros c. destruct (synth_run c) as (w & R & _ & _ & _ & _ & _ & Henv).
  exists w, Samples.deployed_env. rewrite Henv.
  split; [exact R|]. split; [reflexivity|]. split; reflexivity.
Qed.

(** * Further properties *)

(** ** The export handler, beyond the documented cases *)

(** X2: one invocation, at most one answer.  Whatever the platform does,
    the Lambda callback is invoked at most once, an error and a response
    are never both delivered, and the invocation ends normally exactly
    when a response was delivered. *)
Theorem at_most_one_answer
    (client : Lambda.Client) (env : gmap string string)
    (event : Lambda.APIGatewayProxyEventV2) (context : Lambda.Context) :
  (length (Lambda.reported_errors (Lambda.handler client env event context))
   + length (Lambda.documents (Lambda.handler client env event context))
   <= 1)%nat
  /\ ((Lambda.handler client env event context).2 = Lambda.Normal <->
      exists res : Lambda.Response,
        Lambda.documents (Lambda.handler client env event context) = [res]).
Proof.
  unfold Lambda.handler.
  destruct (client (Lambda.getExportParams env event context)) as [e|d];
    cbn [Lambda.callback_args Lambda.getExportCallback].
  - split; [cbn; lia|]. split; [discriminate|]. intros [res H]. discriminate.
  - destruct (Lambda.body d) as [buf|].
    + split; [cbn; lia|]. split; [|reflexivity]. intros _. eexists. reflexivity.
    + split; [cbn; lia|]. split; [discriminate|]. intros [res H]. discriminate.
Qed.

(** X3: the only response the callback body can produce.  For any pair
    of arguments the SDK might pass, a response handed to the Lambda
    callback has statusCode 200, exactly the one header
    Access-Control-Allow-Origin: *, and as body the UTF-8 decoding of the
    body of [data]; no other status is ever produced, also when an error
    came with the data. *)
Theorem every_response_is_200
    (err : option Lambda.AWSError) (data : option Lambda.GetExportResponse)
    (res : Lambda.Response) :
  Lambda.CallbackOk res ∈ (Lambda.getExportCallback err data).1 ->
  Lambda.statusCode res = 200
  /\ Lambda.responseHeaders res = {[ "Access-Control-Allow-Origin" := "*" ]}
  /\ exists (d : Lambda.GetExportResponse) (buf : Buffer),
       data = Some d /\ Lambda.body d = Some buf
       /\ Lambda.responseBody res = Utf8.decode buf.
Proof.
  unfold Lambda.getExportCallback.
  destruct data as [d|]; [destruct (Lambda.body d) as [buf|] eqn:Hb|];
    destruct err as [e|]; cbn [fst app]; intros Hin.
  all: repeat match goal with
       | H : _ ∈ _ :: _ |- _ => apply elem_of_cons in H as [H|H]
       | H : _ ∈ [] |- _ => inversion H
       | H : Lambda.CallbackOk _ = Lambda.CallbackErr _ |- _ => discriminate H
       | H : Lambda.CallbackOk _ = Lambda.CallbackOk _ |- _ => injection H as ->
       end.
  all: split; [reflexivity|]; split; [reflexivity|]; eauto.
Qed.

Lemma every_response_is_200_witness :
  Lambda.statusCode
    {| Lambda.statusCode := 200;
       Lambda.responseHeaders := {[ "Access-Control-Allow-Origin" := "*" ]};
       Lambda.responseBody := [] |} = 200
  /\ Lambda.responseHeaders
       {| Lambda.statusCode := 200;
          Lambda.responseHeaders := {[ "Access-Control-Allow-Origin" := "*" ]};
          Lambda.responseBody := [] |} =
     {[ "Access-Control-Allow-Origin" := "*" ]}
  /\ exists (d : Lambda.GetExportResponse) (buf : Buffer),
       Some {| Lambda.contentType := None; Lambda.contentDisposition := None;
               Lambda.body := Some [] |} = Some d
       /\ Lambda.body d = Some buf
       /\ Lambda.responseBody
            {| Lambda.statusCode := 200;
               Lambda.responseHeaders :=
                 {[ "Access-Control-Allow-Origin" := "*" ]};
               Lambda.responseBody := [] |} = Utf8.decode buf.
Proof.
  apply (every_response_is_200 (Some Samples.not_found)
           (Some {| Lambda.contentType := None;
                    Lambda.contentDisposition := None;
                    Lambda.body := Some [] |})).
  cbn. apply elem_of_cons. right. apply elem_of_cons. left. reflexivity.
Defined.

(** ** The decoder only produces scalar values *)

Lemma lead_ok (b : Z) :
  0 <= b < 256 ->
  Decoder.state_ok (Utf8.lead b).1
  /\ forallb Utf8.is_scalar (Utf8.lead b).2 = true.
Proof.
  intros Hb. unfold Utf8.lead.
  destruct (Z.leb_spec b 0x7F).
  { cbn. unfold Utf8.is_scalar. split; [exact I|lia]. }
  destruct (Z.leb_spec 0xC2 b); destruct (Z.leb_spec b 0xDF); cbn [andb].
  1: { cbn [fst snd forallb Decoder.state_ok]. rewrite land_1F.
       split; [|reflexivity]. divmod. }
  all: destruct (Z.leb_spec 0xE0 b); destruct (Z.leb_spec b 0xEF); cbn [andb];
    try lia.
  1: { cbn [fst snd forallb Decoder.state_ok]. rewrite land_0F.
       split; [|reflexivity].
       destruct (Z.eqb_spec b 0xE0); destruct (Z.eqb_spec b 0xED); divmod. }
  all: destruct (Z.leb_spec 0xF0 b); destruct (Z.leb_spec b 0xF4); cbn [andb];
    try lia.
  1: { cbn [fst snd forallb Decoder.state_ok]. rewrite land_07.
       split; [|reflexivity].
       destruct (Z.eqb_spec b 0xF0); destruct (Z.eqb_spec b 0xF4); divmod. }
  all: cbn; split; [exact I|reflexivity].
Qed.

Lemma step_ok (s : Utf8.state) (b : Z) :
  Decoder.state_ok s -> 0 <= b < 256 ->
  Decoder.state_ok (Utf8.step s b).1
  /\ forallb Utf8.is_scalar (Utf8.step s b).2 = true.
Proof.
  intros Hs Hb. destruct s as [|cp n lo hi]; [apply lead_ok, Hb|].
  cbn [Utf8.step].
  destruct (Z.leb_spec lo b); destruct (Z.leb_spec b hi); cbn [andb].
  2-4: destruct (lead_ok b Hb) as [H1 H2];
       destruct (Utf8.lead b) as [s' out]; cbn [fst snd forallb] in *;
       split; [exact H1|rewrite H2; reflexivity].
  rewrite gather. cbn [Decoder.state_ok] in Hs.
  destruct Hs as (Hlo & Hhi & Hn).
  destruct n as [|[|[|[|n]]]]; try contradiction; cbn [fst snd forallb].
  - split; [exact I|]. unfold Utf8.is_scalar. cbv zeta in Hn.
    rewrite andb_true_r. divmod.
  - split; [|reflexivity]. cbn [Decoder.state_ok]. cbv zeta in Hn |- *. divmod.
  - split; [|reflexivity]. cbn [Decoder.state_ok]. cbv zeta in Hn |- *. divmod.
Qed.

Lemma run_ok (bs : list Z) (s : Utf8.state) :
  Decoder.state_ok s -> Forall (fun b => 0 <= b < 256) bs ->
  forallb Utf8.is_scalar (Utf8.run s bs) = true.
Proof.
  revert s. induction bs as [|b bs IH]; intros s Hs Hbs; cbn [Utf8.run].
  - destruct s; reflexivity.
  - apply Forall_cons in Hbs as [Hb Hbs].
    destruct (step_ok s b Hs Hb) as [H1 H2].
    destruct (Utf8.step s b) as [s' out]. cbn [fst snd] in *.
    rewrite forallb_app, H2. cbn [andb]. apply IH; assumption.
Qed.

Lemma octets_in_range (buf : Buffer) :
  Forall (fun b => 0 <= b < 256) (map Utf8.byte_to_Z buf).
Proof.
  induction buf as [|b buf IH]; cbn [map]; constructor; [|exact IH].
  unfold Utf8.byte_to_Z. pose proof (Byte.to_N_bounded b). lia.
Qed.

Lemma decode_scalar (buf : Buffer) :
  forallb Utf8.is_scalar (Utf8.decode buf) = true.
Proof. apply run_ok; [exact I|apply octets_in_range]. Qed.

(** X4: the response body is always well-formed text.  Whatever octets
    the platform returns, the body handed to the callback consists of
    Unicode scalar values only (no surrogates, nothing above U+10FFFF),
    and transcoding it again changes nothing: the damage done to an
    ill-formed document is done once. *)
Theorem response_body_is_scalar_text
    (client : Lambda.Client) (env : gmap string string)
    (event : Lambda.APIGatewayProxyEventV2) (context : Lambda.Context)
    (d : Lambda.GetExportResponse) (D : Buffer) :
  client (Lambda.getExportParams env event context) = Lambda.Succeeded d ->
  Lambda.body d = Some D ->
  exists res : Lambda.Response,
    Lambda.documents (Lambda.handler client env event context) = [res]
    /\ forallb Utf8.is_scalar (Lambda.responseBody res) = true
    /\ Utf8.decode (Utf8.encode (Lambda.responseBody res)) =
         Lambda.responseBody res.
Proof.
  intros H Hb. rewrite (handler_succeeded _ _ _ _ _ _ H Hb).
  eexists. split; [reflexivity|]. cbn [Lambda.responseBody].
  split; [apply decode_scalar|]. apply decode_encode, decode_scalar.
Qed.

Lemma response_body_is_scalar_text_witness :
  exists res : Lambda.Response,
    Lambda.documents
      (Lambda.handler
         (Samples.respond [Byte.xff; Byte.x41; Byte.xed; Byte.xa0; Byte.xc3])
         Samples.deployed_env Samples.sample_event Samples.sample_context) =
      [res]
    /\ forallb Utf8.is_scalar (Lambda.responseBody res) = true
    /\ Utf8.decode (Utf8.encode (Lambda.responseBody res)) =
         Lambda.responseBody res.
Proof.
  eapply response_body_is_scalar_text; reflexivity.
Defined.

(** ** Stepping through a pass *)

Lemma bind_inv {A B : Type} (m : Stack.Synth A) (k : A -> Stack.Synth B)
    (w w' : Stack.World) (b : B) :
  (m ≫= k) w = inr (b, w') ->
  exists (a : A) (w1 : Stack.World), m w = inr (a, w1) /\ k a w1 = inr (b, w').
Proof.
  unfold mbind, Stack.synth_bind, Stack.bind.
  destruct (m w) as [e|[a w1]]; [discriminate|]. eauto.
Qed.

Lemma ret_inv {A : Type} (a a' : A) (w w' : Stack.World) :
  Stack.ret a w = inr (a', w') -> a' = a /\ w' = w.
Proof. unfold Stack.ret. intros [= <- <-]. auto. Qed.

Lemma newDate_inv (w w' : Stack.World) (t : JS.Date) :
  Stack.newDate w = inr (t, w') ->
  t = Stack.clock w (Stack.reads w)
  /\ w' = {| Stack.clock := Stack.clock w; Stack.reads := S (Stack.reads w);
             Stack.tree := Stack.tree w |}.
Proof. unfold Stack.newDate. intros [= <- <-]. auto. Qed.

(** The duplicate test of [construct], as membership in the node names. *)
Lemma taken_spec (node : string) (tree : list (string * Stack.Construct)) :
  existsb (fun entry => String.eqb entry.1 node) tree = true <->
  node ∈ tree.*1.
Proof.
  rewrite existsb_exists. split.
  - intros ([n c] & Hin & Heq). cbn in Heq. apply String.eqb_eq in Heq.
    subst n. apply list_elem_of_fmap. exists (node, c). split; [reflexivity|].
    apply list_elem_of_In, Hin.
  - intros ([n c] & Hn & Hin)%list_elem_of_fmap. cbn in Hn. subst n.
    exists (node, c). split; [apply list_elem_of_In, Hin|].
    cbn. apply String.eqb_refl.
Qed.

Lemma construct_inv (scope id : string) (c : Stack.Construct)
    (w w' : Stack.World) (n : string) :
  Stack.construct scope id c w = inr (n, w') ->
  n = Stack.child_node scope id
  /\ w' = {| Stack.clock := Stack.clock w; Stack.reads := Stack.reads w;
             Stack.tree := Stack.tree w ++ [(Stack.child_node scope id, c)] |}
  /\ Stack.child_node scope id ∉ (Stack.tree w).*1.
Proof.
  unfold Stack.construct.
  destruct (existsb _ (Stack.tree w)) eqn:E; [discriminate|].
  intros [= <- <-]. split; [reflexivity|]. split; [reflexivity|].
  intros Hin%taken_spec. congruence.
Qed.

Lemma not_in_older {A : Type} (n : string) (l l' : list (string * A)) :
  n ∉ (l ++ l').*1 -> n ∉ l.*1.
Proof. rewrite fmap_app, not_elem_of_app. tauto. Qed.

Ltac head_of f :=
  lazymatch f with
  | ?g _ => head_of g
  | _ => f
  end.

(** Inverts the successful run [H] of a composite step, one primitive
    step at a time.  Each construct met leaves the fact that its node was
    free in the world the run started from. *)
Ltac run_inv H :=
  lazymatch type of H with
  | (?m ≫= ?k) ?w = inr _ =>
      let a := fresh "a" in
      let w1 := fresh "w" in
      let H1 := fresh "H" in
      apply bind_inv in H; destruct H as (a & w1 & H1 & H);
      run_inv H1; cbn beta in H; run_inv H
  | Stack.construct _ _ _ _ = inr _ =>
      let F := fresh "Hfresh" in
      apply construct_inv in H; destruct H as (-> & -> & F);
      cbn [Stack.clock Stack.reads Stack.tree] in *;
      repeat apply not_in_older in F
  | Stack.newDate _ = inr _ =>
      apply newDate_inv in H; destruct H as (-> & ->);
      cbn [Stack.clock Stack.reads Stack.tree] in *
  | Stack.ret _ _ = inr _ =>
      apply ret_inv in H; destruct H as (? & ?); subst;
      cbn [Stack.clock Stack.reads Stack.tree] in *
  | mret _ _ = inr _ =>
      apply ret_inv in H; destruct H as (? & ?); subst;
      cbn [Stack.clock Stack.reads Stack.tree] in *
  | ?f _ = inr _ =>
      let h := head_of f in unfold h in H; run_inv H
  end.

Lemma synth_tree (c : nat -> JS.Date) :
  Stack.synth c =
    inr (tt, {| Stack.clock := c; Stack.reads := 1;
                Stack.tree := Pass.pass_tree (c 0%nat) |}).
Proof.
  unfold Pass.pass_tree.
  cbv -[JS.toISOString JS.Number_toString JS.stringify
        insert singletonM empty].
  reflexivity.
Qed.


(** ** Where the documentation is attached *)

(** X9: the path-parameter documentation sits on the parent route.  For
    any route handed to [todoItemRoute], the step creates the child
    resource whose path is the route's path followed by [{todoId}] and
    puts the GET method on it; every method it adds is on that child.
    The one documentation part it registers, the PATH_PARAMETER part for
    [todoId], carries the path of the parent route and the verb GET: the
    documented path is never the path of the resource that has the
    parameter. *)
Theorem todoId_is_documented_on_parent
    (api : Stack.RestApiRef) (todoRoute : Stack.ResourceRef)
    (w w' : Stack.World) :
  Stack.todoItemRoute api todoRoute w = inr (tt, w') ->
  (Stack.child_node (Stack.res_node todoRoute) "{todoId}",
   Stack.Resource (Pass.child_path (Stack.res_path todoRoute) "{todoId}"))
    ∈ Stack.tree w'
  /\ {| Stack.httpMethod := "GET";
        Stack.resourcePath :=
          Pass.child_path (Stack.res_path todoRoute) "{todoId}";
        Stack.operationName := Some "GetTodoById";
        Stack.authorizerName := None |} ∈ Pass.methods w'
  /\ (forall m : Stack.MethodProps,
        m ∈ Pass.methods w' ->
        m ∈ Pass.methods w
        \/ Stack.resourcePath m =
             Pass.child_path (Stack.res_path todoRoute) "{todoId}")
  /\ Stack.location <$> Stack.documentationParts w' =
       (Stack.location <$> Stack.documentationParts w) ++
         [ {| Stack.type := Some "PATH_PARAMETER";
              Stack.name := Some "todoId";
              Stack.path := Some (Stack.res_path todoRoute);
              Stack.method := Some "GET";
              Stack.statusCode := None |} ]
  /\ Pass.child_path (Stack.res_path todoRoute) "{todoId}" <>
       Stack.res_path todoRoute.
Proof.
  intros H. run_inv H.
  change ((if String.eqb
                (String.substring
                   (String.length (Stack.res_path todoRoute) - 1) 1
                   (Stack.res_path todoRoute)) "/"
           then Stack.res_path todoRoute
           else Stack.res_path todoRoute +:+ "/") +:+ "{todoId}")
    with (Pass.child_path (Stack.res_path todoRoute) "{todoId}") in *.
  cbn [Stack.res_path Stack.res_node].
  lazymatch goal with
  | |- _ /\ _ ∈ Pass.methods ?W /\ _ =>
      assert (Pass.methods W =
              Pass.methods w ++
                [ {| Stack.httpMethod := "GET";
                     Stack.resourcePath :=
                       Pass.child_path (Stack.res_path todoRoute) "{todoId}";
                     Stack.operationName := Some "GetTodoById";
                     Stack.authorizerName := None |} ]) as Hm
  end.
  { unfold Pass.methods. cbn [Stack.tree].
    rewrite !omap_app. cbn [omap list_omap snd]. rewrite !app_nil_r.
    reflexivity. }
  split.
  { rewrite !elem_of_app. left. left. left. right.
    apply elem_of_cons. left. reflexivity. }
  split.
  { rewrite Hm. apply elem_of_app. right. apply elem_of_cons. left.
    reflexivity. }
  split.
  { intros m. rewrite Hm. intros [Hin|Hin]%elem_of_app; [left; exact Hin|].
    right. apply elem_of_cons in Hin as [->|Hin]; [reflexivity|].
    inversion Hin. }
  split.
  { unfold Stack.documentationParts. cbn [Stack.tree].
    rewrite !omap_app. cbn [omap list_omap snd]. rewrite !app_nil_r.
    rewrite fmap_app. reflexivity. }
  intros Heq. apply (f_equal String.length) in Heq.
  unfold Pass.child_path in Heq.
  destruct (String.eqb _ "/"); rewrite ?length_append in Heq;
    cbn [String.length] in Heq; lia.
Qed.

Lemma todoId_is_documented_on_parent_witness :
  (Stack.child_node (Stack.res_node Pass.sample_route) "{todoId}",
   Stack.Resource
     (Pass.child_path (Stack.res_path Pass.sample_route) "{todoId}"))
    ∈ Stack.tree Pass.after_sample_route
  /\ {| Stack.httpMethod := "GET";
        Stack.resourcePath :=
          Pass.child_path (Stack.res_path Pass.sample_route) "{todoId}";
        Stack.operationName := Some "GetTodoById";
        Stack.authorizerName := None |} ∈ Pass.methods Pass.after_sample_route
  /\ (forall m : Stack.MethodProps,
        m ∈ Pass.methods Pass.after_sample_route ->
        m ∈ Pass.methods (Stack.fresh (fun _ => 0))
        \/ Stack.resourcePath m =
             Pass.child_path (Stack.res_path Pass.sample_route) "{todoId}")
  /\ Stack.location <$> Stack.documentationParts Pass.after_sample_route =
       (Stack.location <$> Stack.documentationParts (Stack.fresh (fun _ => 0)))
       ++ [ {| Stack.type := Some "PATH_PARAMETER";
               Stack.name := Some "todoId";
               Stack.path := Some (Stack.res_path Pass.sample_route);
               Stack.method := Some "GET";
               Stack.statusCode := None |} ]
  /\ Pass.child_path (Stack.res_path Pass.sample_route) "{todoId}" <>
       Stack.res_path Pass.sample_route.
Proof.
  apply (todoId_is_documented_on_parent Pass.sample_api).
  unfold Pass.after_sample_route. cbv -[JS.stringify]. reflexivity.
Defined.

Lemma pass_locations (c : nat -> JS.Date) (k : nat) (t : JS.Date) :
  Stack.location <$>
    Stack.documentationParts
      {| Stack.clock := c; Stack.reads := k; Stack.tree := Pass.pass_tree t |} =
    [ {| Stack.type := Some "API"; Stack.name := None;
         Stack.path := None; Stack.method := None;
         Stack.statusCode := None |};
      {| Stack.type := Some "AUTHORIZER";
         Stack.name := Some "SomeAuthorizer";
         Stack.path := None; Stack.method := None;
         Stack.statusCode := None |};
      {| Stack.type := Some "REQUEST_HEADER";
         Stack.name := Some "Authorization";
         Stack.path := Some "/todo"; Stack.method := Some "GET";
         Stack.statusCode := None |};
      {| Stack.type := Some "PATH_PARAMETER";
         Stack.name := Some "todoId";
         Stack.path := Some "/todo"; Stack.method := Some "GET";
         Stack.statusCode := None |} ].
Proof.
  unfold Pass.pass_tree.
  cbv -[JS.toISOString JS.Number_toString JS.stringify
        insert singletonM empty].
  reflexivity.
Qed.

Lemma pass_methods (c : nat -> JS.Date) (k : nat) (t : JS.Date) :
  Pass.methods
    {| Stack.clock := c; Stack.reads := k; Stack.tree := Pass.pass_tree t |} =
    [ {| Stack.httpMethod := "POST"; Stack.resourcePath := "/todo";
         Stack.operationName := Some "CreateTodo";
         Stack.authorizerName := None |};
      {| Stack.httpMethod := "GET"; Stack.resourcePath := "/todo";
         Stack.operationName := Some "ListTodos";
         Stack.authorizerName := Some "SomeAuthorizer" |};
      {| Stack.httpMethod := "GET"; Stack.resourcePath := "/todo/{todoId}";
         Stack.operationName := Some "GetTodoById";
         Stack.authorizerName := None |};
      {| Stack.httpMethod := "GET";
         Stack.resourcePath := "/api-docs/api-docs.json";
         Stack.operationName := None;
         Stack.authorizerName := None |} ]
  /\ Pass.authorizers
       {| Stack.clock := c; Stack.reads := k; Stack.tree := Pass.pass_tree t |} =
     ["SomeAuthorizer"].
Proof.
  unfold Pass.pass_tree.
  cbv -[JS.toISOString JS.Number_toString JS.stringify
        insert singletonM empty].
  split; reflexivity.
Qed.

(** X8: the documentation points at things the pass creates.  After a
    pass, every documentation part that names a path and a verb names a
    method the stack has added at that path with that verb; the
    AUTHORIZER part names an authorizer the stack creates; and every
    method that is given an authorizer is given a created one. *)
Theorem documentation_points_into_the_api (c : nat -> JS.Date) :
  exists w : Stack.World,
    Stack.synth c = inr (tt, w)
    /\ (forall (part : Stack.CfnDocumentationPartProps) (p v : string),
          part ∈ Stack.documentationParts w ->
          Stack.path (Stack.location part) = Some p ->
          Stack.method (Stack.location part) = Some v ->
          exists m : Stack.MethodProps,
            m ∈ Pass.methods w
            /\ Stack.resourcePath m = p /\ Stack.httpMethod m = v)
    /\ (forall (part : Stack.CfnDocumentationPartProps) (n : string),
          part ∈ Stack.documentationParts w ->
          Stack.type (Stack.location part) = Some "AUTHORIZER" ->
          Stack.name (Stack.location part) = Some n ->
          n ∈ Pass.authorizers w)
    /\ (forall (m : Stack.MethodProps) (n : string),
          m ∈ Pass.methods w -> Stack.authorizerName m = Some n ->
          n ∈ Pass.authorizers w).
Proof.
  eexists. split; [apply synth_tree|].
  pose proof (pass_locations c 1 (c 0%nat)) as Hparts.
  destruct (pass_methods c 1 (c 0%nat)) as [Hm Ha].
  assert (forall part : Stack.CfnDocumentationPartProps,
            part ∈ Stack.documentationParts
                     {| Stack.clock := c; Stack.reads := 1;
                        Stack.tree := Pass.pass_tree (c 0%nat) |} ->
            Stack.location part ∈
              (Stack.location <$>
                 Stack.documentationParts
                   {| Stack.clock := c; Stack.reads := 1;
                      Stack.tree := Pass.pass_tree (c 0%nat) |})) as Hin.
  { intros part Hp. apply list_elem_of_fmap. exists part. auto. }
  rewrite Hparts in Hin. rewrite Hm, Ha. clear Hparts Hm Ha.
  split; [|split].
  - intros part p v Hp Hpath Hmeth. apply Hin in Hp.
    repeat (apply elem_of_cons in Hp as [Hl|Hp];
            [rewrite Hl in Hpath, Hmeth; cbn in Hpath, Hmeth;
             try discriminate Hpath; try discriminate Hmeth|]).
    3: inversion Hp.
    all: injection Hpath as <-; injection Hmeth as <-;
      eexists; split; [apply elem_of_cons; right; apply elem_of_cons; left;
                       reflexivity|split; reflexivity].
  - intros part n Hp Hty Hname. apply Hin in Hp.
    repeat (apply elem_of_cons in Hp as [Hl|Hp];
            [rewrite Hl in Hty, Hname; cbn in Hty, Hname;
             try discriminate Hty; try discriminate Hname|]).
    2: inversion Hp.
    injection Hname as <-. apply elem_of_cons. left. reflexivity.
  - intros m n Hin' Hauth.
    repeat (apply elem_of_cons in Hin' as [->|Hin'];
            [cbn in Hauth; try discriminate Hauth|]).
    2: inversion Hin'.
    injection Hauth as <-. apply elem_of_cons. left. reflexivity.
Qed.
